(** * ebeam-tools: the calibration engine of [Calibrator]

    A shallow embedding of the member functions of class [Calibrator]
    (calibrator.hpp and its implementation file) and the properties of the
    calibration session, the replay validator, the fixed-point codec and the
    state file that follow from them.

    Conventions of the embedding.
    - [int] and [long long] values are integers of [Z]; every arithmetic
      operation of the source is followed by the two's complement reduction
      to the width of its C++ type ([to_int], [to_long_long]).
    - A member function that can leave the behaviour defined by the language
      (a store outside [tuples.tuple], a division whose divisor is zero, a
      token longer than its buffer) returns [None] there.
    - [SUCCESS] and [FAILURE] are the two macros of calibrator.hpp seen as
      [bool], the return type of the member functions.
    - The static flag [verbose] is off: the traces it guards are not part of
      the model, the diagnostics printed without it are. *)

From Stdlib Require Import ZArith QArith Qround Qpower Lia Lqa Ascii String.
From stdpp Require Import base numbers list strings gmap pretty.

Local Open Scope Z_scope.

(** ** Machine integers *)

Module Machine.

(** Two's complement reduction of [z] to a signed integer of [w] bits. *)
Definition wrap (w : Z) (z : Z) : Z :=
  (z + 2 ^ (w - 1)) mod 2 ^ w - 2 ^ (w - 1).

Definition to_int (z : Z) : Z := wrap 32 z.
Definition to_long_long (z : Z) : Z := wrap 64 z.

Definition INT_MIN : Z := - 2 ^ 31.
Definition INT_MAX : Z := 2 ^ 31 - 1.
Definition LLONG_MIN : Z := - 2 ^ 63.
Definition LLONG_MAX : Z := 2 ^ 63 - 1.

Definition is_int (z : Z) : Prop := INT_MIN <= z <= INT_MAX.
Definition is_long_long (z : Z) : Prop := LLONG_MIN <= z <= LLONG_MAX.

(** [abs] of <stdlib.h> on an [int]. *)
Definition abs (z : Z) : Z := to_int (Z.abs z).

(** Signed 64-bit division: the quotient is truncated toward zero; a zero
    divisor and [LLONG_MIN / -1] trap. *)
Definition div_long_long (a b : Z) : option Z :=
  if b =? 0 then None
  else if (a =? LLONG_MIN) && (b =? -1) then None
  else Some (Z.quot a b).

End Machine.
Export Machine.

(** ** Data of a calibration session (calibrator.hpp) *)

Definition SUCCESS : bool := true.
Definition FAILURE : bool := false.

Definition THR_DOUBLECLICK : Z := 16.
Definition PRECISION : Z := 12.

(** Names of the points: [UL = 0], [LL = 1], [UR = 2], [LR = 3]. *)
Definition NUM_POINTS : nat := 4.

(** Associated device and screen coordinates. *)
Record Tuple := mkTuple {
  dev_X : Z;
  dev_Y : Z;
  scr_x : Z;
  scr_y : Z
}.

(** All tuples: [tuple] stands for the array [Tuple tuple[NUM_POINTS]]. *)
Record Tuples := mkTuples {
  num : Z;
  tuple : list Tuple
}.

(** The data members of [Calibrator] the member functions below use.  [H]
    stands for [long long H[9]]; [ifile] and [ofile] are null ([None]) or
    paths. *)
Record Calibrator := mkCalibrator {
  device_id : Z;
  device_dir : string;
  precision : Z;
  threshold_doubleclick : Z;
  tuples : Tuples;
  H : list Z;
  zoned : bool;
  min_x : Z;
  min_y : Z;
  max_x : Z;
  max_y : Z;
  screen_width : Z;
  screen_height : Z;
  ifile : option string;
  ofile : option string
}.

Definition with_tuples (c : Calibrator) (t : Tuples) : Calibrator :=
  mkCalibrator (device_id c) (device_dir c) (precision c)
    (threshold_doubleclick c) t (H c) (zoned c)
    (min_x c) (min_y c) (max_x c) (max_y c)
    (screen_width c) (screen_height c) (ifile c) (ofile c).

Definition with_H (c : Calibrator) (h : list Z) : Calibrator :=
  mkCalibrator (device_id c) (device_dir c) (precision c)
    (threshold_doubleclick c) (tuples c) h (zoned c)
    (min_x c) (min_y c) (max_x c) (max_y c)
    (screen_width c) (screen_height c) (ifile c) (ofile c).

Definition with_zoned (c : Calibrator) (z : bool) : Calibrator :=
  mkCalibrator (device_id c) (device_dir c) (precision c)
    (threshold_doubleclick c) (tuples c) (H c) z
    (min_x c) (min_y c) (max_x c) (max_y c)
    (screen_width c) (screen_height c) (ifile c) (ofile c).

Definition with_min_x (c : Calibrator) (v : Z) : Calibrator :=
  mkCalibrator (device_id c) (device_dir c) (precision c)
    (threshold_doubleclick c) (tuples c) (H c) (zoned c)
    v (min_y c) (max_x c) (max_y c)
    (screen_width c) (screen_height c) (ifile c) (ofile c).

Definition with_min_y (c : Calibrator) (v : Z) : Calibrator :=
  mkCalibrator (device_id c) (device_dir c) (precision c)
    (threshold_doubleclick c) (tuples c) (H c) (zoned c)
    (min_x c) v (max_x c) (max_y c)
    (screen_width c) (screen_height c) (ifile c) (ofile c).

Definition with_max_x (c : Calibrator) (v : Z) : Calibrator :=
  mkCalibrator (device_id c) (device_dir c) (precision c)
    (threshold_doubleclick c) (tuples c) (H c) (zoned c)
    (min_x c) (min_y c) v (max_y c)
    (screen_width c) (screen_height c) (ifile c) (ofile c).

Definition with_max_y (c : Calibrator) (v : Z) : Calibrator :=
  mkCalibrator (device_id c) (device_dir c) (precision c)
    (threshold_doubleclick c) (tuples c) (H c) (zoned c)
    (min_x c) (min_y c) (max_x c) v
    (screen_width c) (screen_height c) (ifile c) (ofile c).

(** [H[i]] for a constant index inside the array. *)
Definition H_at (c : Calibrator) (i : nat) : Z := nth i (H c) 0.

Definition get_numclicks (c : Calibrator) : Z := num (tuples c).

Definition reset_tuples (c : Calibrator) : Calibrator :=
  with_tuples c (mkTuples 0 (tuple (tuples c))).

(** ** Replay validation: [Calibrator::test_H] *)

Section Replay.

Variable c : Calibrator.

(** [div] of the loop body: [H[6] * X + H[7] * Y + H[8]] in [long long]. *)
Definition replay_div (t : Tuple) : Z :=
  to_long_long
    (to_long_long (to_long_long (H_at c 6 * dev_X t)
                   + to_long_long (H_at c 7 * dev_Y t))
     + H_at c 8).

(** [2 * (H[a] * X + H[a+1] * Y + H[a+2]) + div], the dividend. *)
Definition replay_num (a : nat) (t : Tuple) : Z :=
  to_long_long
    (to_long_long
       (2 * to_long_long
              (to_long_long (to_long_long (H_at c a * dev_X t)
                             + to_long_long (H_at c (a + 1) * dev_Y t))
               + H_at c (a + 2)))
     + replay_div t).

(** [(int) (dividend / (2*div))]: the quotient converted to [int]. *)
Definition replay_coord (a : nat) (t : Tuple) : option Z :=
  q ← div_long_long (replay_num a t) (to_long_long (2 * replay_div t));
  Some (to_int q).

(** The line printed for a point that is not reproduced. *)
Definition bad_point_message (p : nat) (t : Tuple) (x y : Z) : string :=
  "Point " +:+ pretty (Z.of_nat p + 1) +:+ " : dev(" +:+ pretty (dev_X t)
  +:+ " ; " +:+ pretty (dev_Y t) +:+ ") => scr(" +:+ pretty x +:+ " ; "
  +:+ pretty y +:+ "), real(" +:+ pretty (scr_x t) +:+ " ; "
  +:+ pretty (scr_y t) +:+ ")".

(** One turn of the loop over the points: [Some (true, _)] when the loop
    goes on to the next point, [Some (false, _)] at a [return FAILURE]. *)
Definition test_point (p : nat) : option (bool * list string) :=
  t ← tuple (tuples c) !! p;
  let div := replay_div t in
  if div =? 0 then Some (false, [])
  else
    x ← replay_coord 0 t;
    y ← replay_coord 3 t;
    if negb (x =? scr_x t) || negb (y =? scr_y t)
    then Some (false, [bad_point_message p t x y])
    else Some (true, []).

(** The loop [for (int p=0; p<4; p++)], [n] turns from point [p] on. *)
Fixpoint test_H_from (p : nat) (n : nat) : option (bool * list string) :=
  match n with
  | O => Some (SUCCESS, [])
  | S n' =>
      match test_point p with
      | None => None
      | Some (true, _) => test_H_from (S p) n'
      | Some (false, msgs) => Some (FAILURE, msgs)
      end
  end.

Definition test_H : option (bool * list string) := test_H_from 0 4.

End Replay.

(** ** The calibration session: [Calibrator::add_click] *)

(** The double-click loop [while (i >= 0)], from [tuple[i - 1]] down to
    [tuple[0]]: [Some true] when it reaches its [return FAILURE]. *)
Fixpoint double_click (X Y : Z) (c : Calibrator) (i : nat) : option bool :=
  match i with
  | O => Some false
  | S j =>
      t ← tuple (tuples c) !! j;
      if (abs (to_int (X - dev_X t)) <=? threshold_doubleclick c)
         && (abs (to_int (Y - dev_Y t)) <=? threshold_doubleclick c)
      then Some true
      else double_click X Y c j
  end.

Definition add_click (X Y x y : Z) (c : Calibrator)
  : option (bool * Calibrator) :=
  let n := num (tuples c) in
  dup ← (if (0 <? threshold_doubleclick c) && (0 <? n)
         then double_click X Y c (Z.to_nat n)
         else Some false);
  if dup : bool then Some (FAILURE, c)
  else if (0 <=? n) && (n <? Z.of_nat (length (tuple (tuples c))))
  then Some (SUCCESS,
             with_tuples c
               (mkTuples (to_int (n + 1))
                  (<[Z.to_nat n := mkTuple X Y x y]> (tuple (tuples c)))))
  else None.

(** ** <stdio.h>: formatted output and input of the state files *)

Module Stdio.

Definition nl : string := String (Ascii.ascii_of_nat 10) EmptyString.

(** [isspace]: space, and the control characters 9 to 13. *)
Definition is_space (a : ascii) : bool :=
  let n := Z.of_nat (Ascii.nat_of_ascii a) in
  (n =? 32) || ((9 <=? n) && (n <=? 13)).

Definition digit_value (a : ascii) : option Z :=
  let n := Z.of_nat (Ascii.nat_of_ascii a) in
  if (48 <=? n) && (n <=? 57) then Some (n - 48) else None.

(** The conversions [%d] and [%lld] of fprintf: decimal digits, a leading
    minus sign for a negative value. *)
Definition print_integer (z : Z) : string := pretty z.

Fixpoint skip_space (s : string) : string :=
  match s with
  | String a r => if is_space a then skip_space r else s
  | EmptyString => EmptyString
  end.

(** The longest run of decimal digits at the head of [s], read from the
    left into the accumulator. *)
Fixpoint scan_digits (s : string) (acc : Z) : Z * string :=
  match s with
  | String a r =>
      match digit_value a with
      | Some d => scan_digits r (10 * acc + d)
      | None => (acc, s)
      end
  | EmptyString => (acc, EmptyString)
  end.

(** The longest run of characters that are not white space. *)
Fixpoint scan_word (s : string) : string * string :=
  match s with
  | String a r =>
      if is_space a then (EmptyString, s)
      else let '(w, rest) := scan_word r in (String a w, rest)
  | EmptyString => (EmptyString, EmptyString)
  end.

(** Outcome of one conversion of fscanf: the value and the unread input,
    a matching failure, or an input failure (end of file before any
    character of the item). *)
Inductive scanned (A : Type) : Type :=
| Scanned (v : A) (rest : string)
| MatchFailure
| InputFailure.
Arguments Scanned {A} v rest.
Arguments MatchFailure {A}.
Arguments InputFailure {A}.

Definition starts_with_digit (s : string) : bool :=
  match s with
  | String a _ => match digit_value a with Some _ => true | None => false end
  | EmptyString => false
  end.

(** A decimal integer: white space is skipped, then an optional sign and
    at least one digit are read. *)
Definition scan_integer (s : string) : scanned Z :=
  match skip_space s with
  | EmptyString => InputFailure
  | String a r =>
      let neg := Ascii.eqb a "-" in
      let body := if neg || Ascii.eqb a "+" then r else String a r in
      if starts_with_digit body
      then let '(v, rest) := scan_digits body 0 in
           Scanned (if neg then - v else v) rest
      else MatchFailure
  end.

(** [%d] and [%lld]: the value is stored in an object of the width of the
    conversion. *)
Definition scan_d (s : string) : scanned Z :=
  match scan_integer s with
  | Scanned v rest => Scanned (to_int v) rest
  | MatchFailure => MatchFailure
  | InputFailure => InputFailure
  end.

Definition scan_lld (s : string) : scanned Z :=
  match scan_integer s with
  | Scanned v rest => Scanned (to_long_long v) rest
  | MatchFailure => MatchFailure
  | InputFailure => InputFailure
  end.

(** [%s]: white space is skipped, then a word is read. *)
Definition scan_s (s : string) : scanned string :=
  match skip_space s with
  | EmptyString => InputFailure
  | String a r => let '(w, rest) := scan_word (String a r) in Scanned w rest
  end.

(** The value [EOF] fscanf returns at an input failure before the first
    conversion. *)
Definition EOF : Z := -1.

End Stdio.
Export Stdio.

(** ** The environment of a calibrator *)

(** A [float] as the expression that computes it: an [int] converted to
    [float], or the quotient of two floats.  The rounding of the two
    operations is left to the reader of the value. *)
Inductive cfloat : Type :=
| F_int (z : Z)
| F_div (a b : cfloat).

(** The data of a device property: 32-bit integers or floats. *)
Inductive XData : Type :=
| XIntegers (l : list Z)
| XFloats (l : list cfloat).

(** One call of [XIChangeProperty] in mode [PropModeReplace]. *)
Record XRequest := mkXRequest {
  x_device : Z;
  x_property : string;
  x_type : string;
  x_data : XData
}.

(** What the member functions reach outside the object: the regular files
    ([files], path to contents), the paths [fopen] refuses to open for
    writing ([locked]), the directories [opendir] opens with the names
    [readdir] returns ([dirs]), the names [XInternAtom] answers with [None]
    ([no_atom]), the property changes sent to the X server, oldest first
    ([xrequests]), and the lines written to the standard error stream
    ([stderr]). *)
Record World := mkWorld {
  files : gmap string string;
  locked : gset string;
  dirs : gmap string (list string);
  no_atom : gset string;
  xrequests : list XRequest;
  stderr : list string
}.

Definition with_files (w : World) (f : gmap string string) : World :=
  mkWorld f (locked w) (dirs w) (no_atom w) (xrequests w) (stderr w).

Definition eprint (line : string) (w : World) : World :=
  mkWorld (files w) (locked w) (dirs w) (no_atom w) (xrequests w)
    (stderr w ++ [line]).

Definition eprints (lines : list string) (w : World) : World :=
  mkWorld (files w) (locked w) (dirs w) (no_atom w) (xrequests w)
    (stderr w ++ lines).

Definition XIChangeProperty (r : XRequest) (w : World) : World :=
  mkWorld (files w) (locked w) (dirs w) (no_atom w) (xrequests w ++ [r])
    (stderr w).

(** [XInternAtom (display, name, False) != None]. *)
Definition XInternAtom (name : string) (w : World) : bool :=
  bool_decide (name ∉ no_atom w).

(** [fopen (path, "r")]: the contents to read, when the file exists. *)
Definition fopen_r (path : string) (w : World) : option string :=
  files w !! path.

(** [fopen (path, "w")]: the file is created or truncated to length zero. *)
Definition fopen_w (path : string) (w : World) : option World :=
  if bool_decide (path ∈ locked w) then None
  else Some (with_files w (<[path := EmptyString]> (files w))).

(** [fprintf] on a stream opened for writing on [path]. *)
Definition fprintf (path : string) (text : string) (w : World) : World :=
  with_files w (alter (λ old, old +:+ text) path (files w)).

(** An [int] stored in a [uint32_t]. *)
Definition to_uint32 (z : Z) : Z := z mod 2 ^ 32.

(** ** The driver's files: [reset_], [get_] and [set_ebeam_calibration] *)

Definition reset_ebeam_calibration (c : Calibrator) (w : World)
  : bool * World :=
  let fname := device_dir c +:+ "calibrated" in
  match fopen_w fname w with
  | None =>
      (FAILURE, eprint ("ERROR: unable to open " +:+ fname +:+ " for writing.") w)
  | Some w1 => (SUCCESS, fprintf fname "0" w1)
  end.

(** One expansion of the macro [READ(DATA)], and one turn of the loop over
    [h1] .. [h9]: the file [device_dir/name] is opened and scanned by [scan]
    into the member [set] assigns.  A scan that ends on an input failure
    returns [EOF], which the test [!fscanf(...)] lets through. *)
Definition read_field (name : string) (open_msg : string)
    (scan : string → scanned Z) (set : Calibrator → Z → Calibrator)
    (c : Calibrator) (w : World) : bool * Calibrator * World :=
  let fname := device_dir c +:+ name in
  match fopen_r fname w with
  | None => (FAILURE, c, eprint ("ERROR: unable to open " +:+ fname +:+ open_msg) w)
  | Some text =>
      match scan text with
      | MatchFailure =>
          (FAILURE, c, eprint ("ERROR: unable to parse " +:+ fname) w)
      | Scanned v _ => (SUCCESS, set c v, w)
      | InputFailure => (SUCCESS, c, w)
      end
  end.

Definition set_H (i : nat) (c : Calibrator) (v : Z) : Calibrator :=
  with_H c (<[i := v]> (H c)).

(** The loop [for (int i=1; i<=9; i++)] of [get_ebeam_calibration], [n]
    turns from [i] on. *)
Fixpoint read_H_from (i : nat) (n : nat) (c : Calibrator) (w : World)
  : bool * Calibrator * World :=
  match n with
  | O => (SUCCESS, c, w)
  | S n' =>
      match read_field ("h" +:+ pretty (Z.of_nat i)) " for reading."
              scan_lld (set_H (i - 1)) c w with
      | (true, c1, w1) => read_H_from (S i) n' c1 w1
      | failed => failed
      end
  end.

Definition get_ebeam_calibration (c : Calibrator) (w : World)
  : bool * Calibrator * World :=
  match read_field "min_x" "" scan_d with_min_x c w with
  | (true, c1, w1) =>
      match read_field "min_y" "" scan_d with_min_y c1 w1 with
      | (true, c2, w2) =>
          match read_field "max_x" "" scan_d with_max_x c2 w2 with
          | (true, c3, w3) =>
              match read_field "max_y" "" scan_d with_max_y c3 w3 with
              | (true, c4, w4) => read_H_from 1 9 c4 w4
              | failed => failed
              end
          | failed => failed
          end
      | failed => failed
      end
  | failed => failed
  end.

(** The chain of [strcmp] of [set_ebeam_calibration]: the text written to
    the file of that name, [None] at the final [continue]. *)
Definition ebeam_value (c : Calibrator) (d_name : string) : option string :=
  if String.eqb d_name "min_x" then Some (print_integer (min_x c))
  else if String.eqb d_name "min_y" then Some (print_integer (min_y c))
  else if String.eqb d_name "max_x" then Some (print_integer (max_x c))
  else if String.eqb d_name "max_y" then Some (print_integer (max_y c))
  else if String.eqb d_name "h1" then Some (print_integer (H_at c 0))
  else if String.eqb d_name "h2" then Some (print_integer (H_at c 1))
  else if String.eqb d_name "h3" then Some (print_integer (H_at c 2))
  else if String.eqb d_name "h4" then Some (print_integer (H_at c 3))
  else if String.eqb d_name "h5" then Some (print_integer (H_at c 4))
  else if String.eqb d_name "h6" then Some (print_integer (H_at c 5))
  else if String.eqb d_name "h7" then Some (print_integer (H_at c 6))
  else if String.eqb d_name "h8" then Some (print_integer (H_at c 7))
  else if String.eqb d_name "h9" then Some (print_integer (H_at c 8))
  else None.

(** The loop [while ((ep = readdir(dp)))]: the number of files written, or
    [None] at the [return FAILURE] inside the loop. *)
Fixpoint write_fields (c : Calibrator) (entries : list string) (n : Z)
    (w : World) : option Z * World :=
  match entries with
  | [] => (Some n, w)
  | d_name :: rest =>
      match ebeam_value c d_name with
      | None => write_fields c rest n w
      | Some value =>
          let fname := device_dir c +:+ d_name in
          match fopen_w fname w with
          | None =>
              (None,
               eprint ("ERROR: unable to open " +:+ fname +:+ " for writing.") w)
          | Some w1 =>
              write_fields c rest (to_int (n + 1)) (fprintf fname value w1)
          end
      end
  end.

Definition set_ebeam_calibration (c : Calibrator) (w : World) : bool * World :=
  match dirs w !! device_dir c with
  | None => (FAILURE, eprint ("ERROR: unable to open " +:+ device_dir c) w)
  | Some entries =>
      match write_fields c entries 0 w with
      | (None, w1) => (FAILURE, w1)
      | (Some n, w1) =>
          if negb (n =? 13)
          then (FAILURE,
                eprint ("ERROR: only " +:+ print_integer n +:+ " parameters set, "
                        +:+ "not in sync with ebeam kernel module ?") w1)
          else
            let fname := device_dir c +:+ "calibrated" in
            match fopen_w fname w1 with
            | None =>
                (FAILURE,
                 eprint ("ERROR: unable to open " +:+ fname +:+ " for writing.") w1)
            | Some w2 => (SUCCESS, fprintf fname "1" w2)
            end
      end
  end.

(** ** The X server: coordinate transformation and evdev calibration *)

(** [compute_XCTM]: the nine floats [m[0]] .. [m[8]]. *)
Definition compute_XCTM (c : Calibrator) : list cfloat :=
  [ F_div (F_int (to_int (to_int (max_x c - min_x c) + 1)))
          (F_int (screen_width c));
    F_int 0;
    F_div (F_int (min_x c)) (F_int (screen_width c));
    F_int 0;
    F_div (F_int (to_int (to_int (max_y c - min_y c) + 1)))
          (F_int (screen_height c));
    F_div (F_int (min_y c)) (F_int (screen_height c));
    F_int 0;
    F_int 0;
    F_int 1 ].

Definition set_XCTM_to_identity : list cfloat :=
  [ F_int 1; F_int 0; F_int 0;
    F_int 0; F_int 1; F_int 0;
    F_int 0; F_int 0; F_int 1 ].

Definition axis_calibration : string := "Evdev Axis Calibration".
Definition transformation_matrix : string := "Coordinate Transformation Matrix".

Definition sync_evdev_calibration (c : Calibrator) (w : World) : bool * World :=
  if negb (XInternAtom axis_calibration w)
  then (FAILURE, eprint "ERROR : Evdev Axis Calibration property not found." w)
  else
    let w1 :=
      XIChangeProperty
        (mkXRequest (device_id c) axis_calibration "INTEGER"
           (XIntegers [to_uint32 (min_x c); to_uint32 (max_x c);
                       to_uint32 (min_y c); to_uint32 (max_y c)])) w in
    if zoned c then
      if negb (XInternAtom "FLOAT" w1)
      then (FAILURE, eprint "ERROR : Float atom not found.." w1)
      else if negb (XInternAtom transformation_matrix w1)
      then (FAILURE,
            eprint "ERROR : Coordinate Transformation Matrix property not found." w1)
      else
        (SUCCESS,
         XIChangeProperty
           (mkXRequest (device_id c) transformation_matrix "FLOAT"
              (XFloats (compute_XCTM c))) w1)
    else (SUCCESS, w1).

Definition reset_evdev_calibration (c : Calibrator) (w : World) : bool * World :=
  if negb (XInternAtom axis_calibration w)
  then (FAILURE, eprint "ERROR : Evdev Axis Calibration property not found." w)
  else
    let w1 :=
      XIChangeProperty
        (mkXRequest (device_id c) axis_calibration "INTEGER" (XIntegers [])) w in
    if negb (XInternAtom "FLOAT" w1)
    then (FAILURE, eprint "ERROR : Float atom not found.." w1)
    else if negb (XInternAtom transformation_matrix w1)
    then (FAILURE,
          eprint "ERROR : Coordinate Transformation Matrix property not found." w1)
    else
      (SUCCESS,
       XIChangeProperty
         (mkXRequest (device_id c) transformation_matrix "FLOAT"
            (XFloats set_XCTM_to_identity)) w1).

(** ** The fixed-point codec and the solver: [Calibrator::find_H] *)

(** A finite [double] or [long double] is a rational number.  The
    conversion to [long long] truncates toward zero; a value outside
    [long long] has no defined conversion, and the x86 instructions store
    [LLONG_MIN] for it. *)
Definition Qtruncate (q : Q) : Z := Z.quot (Qnum q) (Z.pos (Qden q)).

Definition long_long_of_float (q : Q) : Z :=
  let t := Qtruncate q in
  if (LLONG_MIN <=? t) && (t <=? LLONG_MAX) then t else LLONG_MIN.

(** [pow (10.0, precision)]: the power of ten, which is a [double] for the
    exponents 0 to 22. *)
Definition pow10 (p : Z) : Q := Qpower (10 # 1) p.

Section Solver.

(** Rounding of a real number to [long double], applied to the result of
    each [long double] operation. *)
Variable long_double : Q → Q.

(** The two entry points of the GNU Scientific Library [find_H] calls, on
    the 8x8 matrix and the right-hand side it builds: the decomposition
    [LU] with its permutation, and the solution; [None] is a status other
    than zero. *)
Variable LU_factors : Type.
Variable gsl_linalg_LU_decomp : list (list Z) → option LU_factors.
Variable gsl_linalg_LU_solve : LU_factors → list Z → option (list Q).

(** The body of the loop that fills [H[0]] .. [H[7]]: the coefficient
    [v] scaled by [10^precision], rounded half away from zero. *)
Definition quantize (v : Q) (p : Z) : Z :=
  if Qle_bool 0 v
  then long_long_of_float
         (long_double (long_double (v * pow10 p) + (1 # 2)))%Q
  else long_long_of_float
         (long_double (long_double (v * pow10 p) - (1 # 2)))%Q.

(** The two rows of [A] for one tuple. *)
Definition A_rows (t : Tuple) : list (list Z) :=
  let X := dev_X t in
  let Y := dev_Y t in
  let x := scr_x t in
  let y := scr_y t in
  [ [X; Y; 1; 0; 0; 0; to_int (- to_int (X * x)); to_int (- to_int (Y * x))];
    [0; 0; 0; X; Y; 1; to_int (- to_int (X * y)); to_int (- to_int (Y * y))] ].

Definition b_rows (t : Tuple) : list Z := [scr_x t; scr_y t].

(** [tuples.tuple[0]] .. [tuples.tuple[3]], read by both loops. *)
Definition four_tuples (c : Calibrator) : list Tuple :=
  take 4 (tuple (tuples c)).

(** The loop [for (int i=0; i<8; i++)] over the solution [h]. *)
Fixpoint fill_H (h : list Q) (p : Z) (i : nat) (n : nat) (hs : list Z)
  : list Z :=
  match n with
  | O => hs
  | S n' => fill_H h p (S i) n' (<[i := quantize (nth i h 0%Q) p]> hs)
  end.

Definition find_H (c : Calibrator) : bool * Calibrator * list string :=
  let A := concat (map A_rows (four_tuples c)) in
  let b := concat (map b_rows (four_tuples c)) in
  match gsl_linalg_LU_decomp A with
  | None => (FAILURE, c, ["ERROR: gsl LU decomposition failed."])
  | Some LU =>
      match gsl_linalg_LU_solve LU b with
      | None => (FAILURE, c, ["ERROR: gsl solver failed."])
      | Some h =>
          let hs := fill_H h (precision c) 0 8 (H c) in
          (SUCCESS,
           with_H c (<[8%nat := long_long_of_float (pow10 (precision c))]> hs),
           [])
      end
  end.

(** ** The end of the interactive part: [Calibrator::finish] *)

Definition finish (c : Calibrator) (w : World)
  : option (bool * Calibrator * World) :=
  if negb (num (tuples c) =? Z.of_nat NUM_POINTS)
  then Some (FAILURE, c, eprint "ERROR: not enough points." w)
  else
    match find_H c with
    | (false, c1, msgs) =>
        Some (FAILURE, c1,
              eprint "ERROR: unable to compute H matrix." (eprints msgs w))
    | (true, c1, msgs) =>
        let w1 := eprints msgs w in
        match test_H c1 with
        | None => None
        | Some (false, lines) =>
            Some (FAILURE, c1,
                  eprint "ERROR: unreliable H matrix." (eprints lines w1))
        | Some (true, lines) =>
            let w2 := eprints lines w1 in
            match set_ebeam_calibration c1 w2 with
            | (false, w3) =>
                Some (FAILURE, c1,
                      eprint "ERROR: unable to set eBeam calibration." w3)
            | (true, w3) =>
                match sync_evdev_calibration c1 w3 with
                | (false, w4) =>
                    Some (FAILURE, c1,
                          eprint "ERROR: unable to set X calibration." w4)
                | (true, w4) => Some (SUCCESS, c1, w4)
                end
            end
        end
    end.

End Solver.

(** ** The state file: [Calibrator::do_calib_io] *)

Section StateFile.

(** The macro [VERSION], which the build defines. *)
Variable VERSION : string.

(** The loop [for (int i = 0; i<9 ; i++) fprintf(fp, "%lld\n", H[i])], [n]
    turns from [i] on. *)
Fixpoint print_H_from (path : string) (c : Calibrator) (i : nat) (n : nat)
    (w : World) : World :=
  match n with
  | O => w
  | S n' =>
      print_H_from path c (S i) n'
        (fprintf path (print_integer (H_at c i) +:+ nl) w)
  end.

(** The three groups of [fprintf] of the saving branch. *)
Definition print_state (path : string) (c : Calibrator) (w : World) : World :=
  let w1 := fprintf path (VERSION +:+ nl) w in
  let w2 :=
    fprintf path
      (print_integer (min_x c) +:+ nl +:+ print_integer (max_x c) +:+ nl
       +:+ print_integer (min_y c) +:+ nl +:+ print_integer (max_y c) +:+ nl)
      w1 in
  print_H_from path c 0 9 w2.

(** [fscanf] with the format of [k] conversions [%d] each followed by white
    space, one setter per conversion: the value returned, the object
    after the assignments made, and the unread input. *)
Fixpoint fscanf_ints (setters : list (Calibrator → Z → Calibrator))
    (s : string) (c : Calibrator) (count : Z) : Z * Calibrator * string :=
  match setters with
  | [] => (count, c, s)
  | set :: more =>
      match scan_d s with
      | Scanned v rest => fscanf_ints more (skip_space rest) (set c v) (count + 1)
      | MatchFailure => (count, c, s)
      | InputFailure => (if count =? 0 then EOF else count, c, s)
      end
  end.

(** The loop [for (int i = 0; i<9 ; i++)] of the restoring branch: [false]
    at its [return FAILURE].  At the end of the input fscanf returns
    [EOF], the test [!fscanf(...)] is false and [H[i]] keeps its value. *)
Fixpoint scan_H_from (i : nat) (n : nat) (s : string) (c : Calibrator)
  : bool * Calibrator :=
  match n with
  | O => (true, c)
  | S n' =>
      match scan_lld s with
      | Scanned v rest => scan_H_from (S i) n' (skip_space rest) (set_H i c v)
      | MatchFailure => (false, c)
      | InputFailure => scan_H_from (S i) n' s c
      end
  end.

(** The test that sets [zoned] after the file is read. *)
Definition full_screen (c : Calibrator) : bool :=
  (min_x c =? 0) && (min_y c =? 0)
  && (max_x c =? to_int (screen_width c - 1))
  && (max_y c =? to_int (screen_height c - 1)).

(** The saving branch, entered when [ofile] is not null. *)
Definition save_state (path : string) (c : Calibrator) (w : World)
  : bool * Calibrator * World :=
  match fopen_w path w with
  | None =>
      (FAILURE, c,
       eprint ("ERROR: unable to open " +:+ path +:+ " for writing.") w)
  | Some w1 =>
      match get_ebeam_calibration c w1 with
      | (false, c1, w2) =>
          (FAILURE, c1,
           eprint "ERROR: unable to retrieve actual calibration." w2)
      | (true, c1, w2) => (SUCCESS, c1, print_state path c1 w2)
      end
  end.

(** The restoring branch, entered when [ifile] is not null.  The word
    read by [%s] goes to [char version[10]]. *)
Definition restore_state (path : string) (c : Calibrator) (w : World)
  : option (bool * Calibrator * World) :=
  match fopen_r path w with
  | None =>
      Some (FAILURE, c,
            eprint ("ERROR: unable to open " +:+ path +:+ " for reading.") w)
  | Some text =>
      match scan_s text with
      | Scanned version rest =>
          if (9 <? String.length version)%nat then None
          else
            let w1 :=
              if String.eqb version VERSION then w
              else eprints
                     ["WARNING: version mismatch : state file is " +:+ version
                      +:+ ", application is " +:+ VERSION +:+ ".";
                      "         Proceeding anyway."] w in
            match fscanf_ints [with_min_x; with_max_x; with_min_y; with_max_y]
                    (skip_space rest) c 0 with
            | (r, c1, rest1) =>
                if negb (r =? 4)
                then Some (FAILURE, c1,
                           eprint ("ERROR: bad state file (min/max) " +:+ path) w1)
                else
                  match scan_H_from 0 9 rest1 c1 with
                  | (false, c2) =>
                      Some (FAILURE, c2,
                            eprint ("ERROR: bad state file (H coefs) " +:+ path) w1)
                  | (true, c2) =>
                      let c3 := with_zoned c2 (negb (full_screen c2)) in
                      match set_ebeam_calibration c3 w1 with
                      | (false, w2) =>
                          Some (FAILURE, c3,
                                eprint "ERROR: unable to set eBeam calibration." w2)
                      | (true, w2) =>
                          match sync_evdev_calibration c3 w2 with
                          | (false, w3) =>
                              Some (FAILURE, c3,
                                    eprint "ERROR: unable to set X calibration." w3)
                          | (true, w3) => Some (SUCCESS, c3, w3)
                          end
                      end
                  end
            end
      | _ =>
          Some (FAILURE, c,
                eprint ("ERROR: bad state file (version) " +:+ path) w)
      end
  end.

Definition do_calib_io (c : Calibrator) (w : World)
  : option (bool * Calibrator * World) :=
  match ifile c, ofile c with
  | None, None => Some (FAILURE, c, eprint "ERROR: No file to save/restore." w)
  | None, Some out => Some (save_state out c w)
  | Some inp, None => restore_state inp c w
  | Some inp, Some out =>
      match save_state out c w with
      | (false, c1, w1) => Some (FAILURE, c1, w1)
      | (true, c1, w1) => restore_state inp c1 w1
      end
  end.

End StateFile.

(** ** The replay as the specification words it

    The specification compares the quotient itself with the stored screen
    coordinate; [test_H] compares the quotient converted to [int]. *)


(** A point is reproduced: [div] is not zero and both coordinates computed
    by [test_H] are the stored screen coordinates. *)
Definition reproduces (c : Calibrator) (t : Tuple) : Prop :=
  replay_div c t ≠ 0
  ∧ replay_coord c 0 t = Some (scr_x t)
  ∧ replay_coord c 3 t = Some (scr_y t).

(** ** The debounce rule as the specification words it *)

(** The points accepted in this run: the first [num] tuples. *)
Definition accepted (c : Calibrator) : list Tuple :=
  take (Z.to_nat (num (tuples c))) (tuple (tuples c)).

(** The device point [(X, Y)] lies within [t] of the tuple, on each axis. *)
Definition near (X Y thr : Z) (t : Tuple) : Prop :=
  Z.abs (X - dev_X t) <= thr ∧ Z.abs (Y - dev_Y t) <= thr.

(** The differences with the tuple are values of [int] that [abs] can
    negate. *)
Definition in_reach (X Y : Z) (t : Tuple) : Prop :=
  INT_MIN < X - dev_X t <= INT_MAX ∧ INT_MIN < Y - dev_Y t <= INT_MAX.

(** ** The encoding of the state file as the specification words it *)

(** The fourteen tokens: the version tag, the four bounds of the zone in
    the order [minX], [maxX], [minY], [maxY], and [h1] .. [h9], the
    numbers as decimal text. *)
Definition state_numbers (c : Calibrator) : list Z :=
  [min_x c; max_x c; min_y c; max_y c] ++ map (H_at c) (seq 0 9).

Definition state_tokens (tag : string) (c : Calibrator) : list string :=
  tag :: map print_integer (state_numbers c).

(** One token per line, each line ended by a newline, before [rest]. *)
Definition lines_before (rest : string) (tokens : list string) : string :=
  foldr (λ t acc, t +:+ nl +:+ acc) rest tokens.

Definition state_text (tag : string) (c : Calibrator) : string :=
  lines_before EmptyString (state_tokens tag c).

(** A version tag [%s] reads back whole into [char version[10]]: not
    empty, without white space, of at most nine characters. *)
Fixpoint no_space (s : string) : bool :=
  match s with
  | EmptyString => true
  | String a r => negb (is_space a) && no_space r
  end.

Definition is_word (s : string) : bool :=
  match s with
  | EmptyString => false
  | String _ _ => no_space s && (String.length s <=? 9)%nat
  end.

(** A snapshot whose numbers are values of their C++ types. *)
Definition valid_snapshot (c : Calibrator) : Prop :=
  is_int (min_x c) ∧ is_int (max_x c) ∧ is_int (min_y c) ∧ is_int (max_y c)
  ∧ length (H c) = 9%nat ∧ Forall is_long_long (H c).

(** The lines the restoring branch prints when the tag read differs from
    [VERSION]. *)
Definition version_warning (VERSION tag : string) (w : World) : World :=
  if String.eqb tag VERSION then w
  else eprints
         ["WARNING: version mismatch : state file is " +:+ tag
          +:+ ", application is " +:+ VERSION +:+ ".";
          "         Proceeding anyway."] w.


(** The text that may follow a number: it does not go on with a digit. *)
Definition ends_number (r : string) : Prop := starts_with_digit r = false.


(** ** The values [test_H] computes when nothing overflows *)

(** The sum [H[a]*X + H[a+1]*Y + H[a+2]] as an integer. *)
Definition row_value (c : Calibrator) (a : nat) (t : Tuple) : Z :=
  H_at c a * dev_X t + H_at c (a + 1) * dev_Y t + H_at c (a + 2).

(** The terms of that sum, taken in absolute value, add up to at most
    [2^60]: every intermediate result of [test_H] then fits [long long]. *)
Definition row_fits (c : Calibrator) (a : nat) (t : Tuple) : Prop :=
  Z.abs (H_at c a) * Z.abs (dev_X t)
  + Z.abs (H_at c (a + 1)) * Z.abs (dev_Y t)
  + Z.abs (H_at c (a + 2)) <= 2 ^ 60.

(** ** The files of the driver *)

(** The thirteen names [set_ebeam_calibration] writes and
    [get_ebeam_calibration] reads. *)
Definition parameter_names : list string :=
  ["min_x"; "min_y"; "max_x"; "max_y";
   "h1"; "h2"; "h3"; "h4"; "h5"; "h6"; "h7"; "h8"; "h9"].

(** The entry of a directory is one of them. *)
Definition is_parameter (c : Calibrator) (d_name : string) : bool :=
  match ebeam_value c d_name with Some _ => true | None => false end.

(** ** Construction: [Calibrator::Calibrator] *)

(** [throw std::runtime_error (what)]. *)
Inductive thrown : Type := runtime_error (what : string).

(** The getters of the class. *)
Definition is_zoned (c : Calibrator) : bool := zoned c.
Definition get_min_x (c : Calibrator) : Z := min_x c.
Definition get_min_y (c : Calibrator) : Z := min_y c.
Definition get_max_x (c : Calibrator) : Z := max_x c.
Definition get_max_y (c : Calibrator) : Z := max_y c.

(** The constructor.  [display] and [dev] tell whether [XOpenDisplay] and
    [XOpenDevice] return an object; [width] and [height] are the size of
    the screen the X server reports (through XRandR, rotated or not, or
    [DisplayWidth] and [DisplayHeight]); [tuple0] and [H0] are what the
    memory of the two arrays holds, which the constructor does not
    initialise. *)
Definition new_Calibrator (display dev : bool)
    (device_id0 : Z) (device_dir0 : string)
    (precision0 threshold_doubleclick0 : Z)
    (z_min_x0 z_min_y0 z_max_x0 z_max_y0 : Z)
    (ifile0 ofile0 : option string)
    (tuple0 : list Tuple) (H0 : list Z) (width height : Z)
  : thrown + Calibrator :=
  if negb display then inl (runtime_error "Unable to connect to X server.")
  else
    let c :=
      mkCalibrator device_id0 device_dir0 precision0 threshold_doubleclick0
        (mkTuples 0 tuple0) H0 true z_min_x0 z_min_y0 z_max_x0 z_max_y0
        width height ifile0 ofile0 in
    let c1 :=
      if Z.lor (Z.lor (Z.lor (min_x c) (min_y c)) (max_x c)) (max_y c) =? 0
      then with_zoned
             (with_max_y (with_max_x c (to_int (screen_width c - 1)))
                (to_int (screen_height c - 1)))
             false
      else c in
    if negb dev then inl (runtime_error "Unable to open device.")
    else inr c1.

(** ** The calibration window: [GuiCalibratorX11] *)

(** [(int) d] for a [double] [d]: truncation toward zero; a value outside
    [int] has no defined conversion, and the x86 instruction stores
    [INT_MIN] for it. *)
Definition int_of_float (q : Q) : Z :=
  let t := Qtruncate q in
  if (INT_MIN <=? t) && (t <=? INT_MAX) then t else INT_MIN.

(** The part of an [XIRawEvent] the handlers read: the bytes of
    [valuators.mask] and the array [raw_values]. *)
Record XIRawEvent := mkXIRawEvent {
  valuators_mask : list Z;
  raw_values : list Q
}.

(** The macro [XIMaskIsSet (ptr, event)]:
    [ptr[event >> 3] & (1 << (event & 7))]. *)
Definition XIMaskIsSet (ptr : list Z) (event : Z) : bool :=
  match ptr !! Z.to_nat (Z.shiftr event 3) with
  | Some byte => negb (Z.land byte (Z.shiftl 1 (Z.land event 7)) =? 0)
  | None => false
  end.

Module GuiCalibratorX11.

Definition time_step : Z := 100.
Definition max_time : Z := 15000.
Definition NUM_BLOCKS : Z := 8.

Inductive colour : Type := BLACK | WHITE | GRAY | DIMGRAY | RED | DARKGREEN.

(** What a handler draws that depends on the state: the cross of a target,
    and the message of [draw_message]. *)
Inductive drawn : Type :=
| Cross (x y : Z) (col : colour)
| Message (msg : string) (col : colour).

(** The members the handlers use, with the two static flags [final_step]
    and [is_running].  [target_x] and [target_y] stand for the arrays of
    [NUM_POINTS] doubles, which only ever hold values of [int]
    expressions. *)
Record t := mk {
  calibrator : Calibrator;
  display_width : Z;
  display_height : Z;
  min_x : Z;
  min_y : Z;
  max_x : Z;
  max_y : Z;
  target_x : list Z;
  target_y : list Z;
  raw_X : Z;
  raw_Y : Z;
  time_elapsed : Z;
  final_step : bool;
  is_running : bool
}.

Definition with_calibrator (g : t) (c : Calibrator) : t :=
  mk c (display_width g) (display_height g)
    (min_x g) (min_y g) (max_x g) (max_y g) (target_x g) (target_y g)
    (raw_X g) (raw_Y g) (time_elapsed g) (final_step g) (is_running g).

Definition with_raw (g : t) (X Y : Z) : t :=
  mk (calibrator g) (display_width g) (display_height g)
    (min_x g) (min_y g) (max_x g) (max_y g) (target_x g) (target_y g)
    X Y (time_elapsed g) (final_step g) (is_running g).

Definition with_time_elapsed (g : t) (v : Z) : t :=
  mk (calibrator g) (display_width g) (display_height g)
    (min_x g) (min_y g) (max_x g) (max_y g) (target_x g) (target_y g)
    (raw_X g) (raw_Y g) v (final_step g) (is_running g).

Definition with_final_step (g : t) (b : bool) : t :=
  mk (calibrator g) (display_width g) (display_height g)
    (min_x g) (min_y g) (max_x g) (max_y g) (target_x g) (target_y g)
    (raw_X g) (raw_Y g) (time_elapsed g) b (is_running g).

Definition with_is_running (g : t) (b : bool) : t :=
  mk (calibrator g) (display_width g) (display_height g)
    (min_x g) (min_y g) (max_x g) (max_y g) (target_x g) (target_y g)
    (raw_X g) (raw_Y g) (time_elapsed g) (final_step g) b.

(** [setup_zone]; [width] and [height] are the size of the screen the X
    server reports during the call.  The targets are listed in the order
    of the enumeration: [UL], [LL], [UR], [LR]. *)
Definition setup_zone (width height : Z) (g : t) : t :=
  if (display_width g =? width) && (display_height g =? height) then g
  else
    let delta_x :=
      Z.quot (to_int (to_int (max_x g - min_x g) + 1)) NUM_BLOCKS in
    let delta_y :=
      Z.quot (to_int (to_int (max_y g - min_y g) + 1)) NUM_BLOCKS in
    mk (reset_tuples (calibrator g)) width height
      (min_x g) (min_y g) (max_x g) (max_y g)
      [to_int (min_x g + delta_x); to_int (min_x g + delta_x);
       to_int (max_x g - delta_x); to_int (max_x g - delta_x)]
      [to_int (min_y g + delta_y); to_int (max_y g - delta_y);
       to_int (min_y g + delta_y); to_int (max_y g - delta_y)]
      (raw_X g) (raw_Y g) (time_elapsed g) (final_step g) (is_running g).

(** The loop [for (int i = 0; i <= calibrator->get_numclicks(); i++)] of
    [redraw], [n] turns from [i] on: white for the targets clicked, red for
    the next one.  [None] is a read outside the arrays. *)
Fixpoint draw_targets (g : t) (i : nat) (n : nat) : option (list drawn) :=
  match n with
  | O => Some []
  | S n' =>
      match target_x g !! i, target_y g !! i with
      | Some x, Some y =>
          match draw_targets g (S i) n' with
          | Some rest =>
              Some (Cross x y
                      (if Z.of_nat i <? get_numclicks (calibrator g)
                       then WHITE else RED) :: rest)
          | None => None
          end
      | _, _ => None
      end
  end.

(** [redraw]: the check of the display size, then the targets when not in
    the final step.  The help text, the backgrounds and the clock, which do
    not depend on the clicks, are left out. *)
Definition redraw (width height : Z) (g : t) : option (t * list drawn) :=
  let g1 := setup_zone width height g in
  if final_step g1 then Some (g1, [])
  else
    match draw_targets g1 0
            (Z.to_nat (get_numclicks (calibrator g1) + 1)) with
    | Some crosses => Some (g1, crosses)
    | None => None
    end.

Definition draw_message (msg : string) (col : colour) (width height : Z)
    (g : t) : option (t * list drawn) :=
  match redraw width height g with
  | Some (g1, crosses) => Some (g1, crosses ++ [Message msg col])
  | None => None
  end.

(** [clock_tick]: one period of the timer. *)
Definition clock_tick (g : t) : t :=
  let g1 := with_time_elapsed g (to_int (time_elapsed g + time_step)) in
  if max_time <? time_elapsed g1 then with_is_running g1 false else g1.

(** [on_motion_event]: the raw values are kept when not in the final step
    and both valuators are present.  [None] is a read past [raw_values]. *)
Definition on_motion_event (event : XIRawEvent) (g : t) : option t :=
  if negb (final_step g)
     && XIMaskIsSet (valuators_mask event) 0
     && XIMaskIsSet (valuators_mask event) 1
  then
    match raw_values event with
    | X :: Y :: _ => Some (with_raw g (int_of_float X) (int_of_float Y))
    | _ => None
    end
  else Some g.

Section Events.

Variable long_double : Q → Q.
Variable LU_factors : Type.
Variable gsl_linalg_LU_decomp : list (list Z) → option LU_factors.
Variable gsl_linalg_LU_solve : LU_factors → list Z → option (list Q).

(** [on_button_event], with what it draws after [XClearWindow].  [None]
    is a read outside [target_x], a store outside the tuples, or an
    undefined [finish]. *)
Definition on_button_event (width height : Z) (g : t) (w : World)
  : option (t * World * list drawn) :=
  if final_step g then Some (with_is_running g false, w, [])
  else
    let i := get_numclicks (calibrator g) in
    let g0 := with_time_elapsed g 0 in
    if (i <? 0) then None
    else
      match target_x g !! Z.to_nat i, target_y g !! Z.to_nat i with
      | Some x, Some y =>
          match add_click (raw_X g) (raw_Y g) x y (calibrator g) with
          | None => None
          | Some (false, c1) =>
              match draw_message
                      "Double click detected, click on the next point in red."
                      BLACK width height (with_calibrator g0 c1) with
              | Some (g1, d) => Some (g1, w, d)
              | None => None
              end
          | Some (true, c1) =>
              let g1 := with_calibrator g0 c1 in
              if get_numclicks c1 =? Z.of_nat NUM_POINTS
              then
                let g2 := with_final_step g1 true in
                match finish long_double LU_factors gsl_linalg_LU_decomp
                        gsl_linalg_LU_solve c1 w with
                | None => None
                | Some (success, c2, w1) =>
                    let g3 := with_calibrator g2 c2 in
                    match (if success : bool
                           then draw_message "Calibration complete." DARKGREEN
                                  width height g3
                           else draw_message "Calibration failed." RED
                                  width height g3) with
                    | Some (g4, d) => Some (g4, w1, d)
                    | None => None
                    end
                end
              else
                match redraw width height g1 with
                | Some (g2, d) => Some (g2, w, d)
                | None => None
                end
          end
      | _, _ => None
      end.

(** The events [timer_signal] tells apart: an [Expose] with its count, the
    three events of the XI extension it handles, another event of that
    extension, and anything its tests skip. *)
Inductive XEvent : Type :=
| Expose (count : Z)
| XI_RawMotion (event : XIRawEvent)
| XI_RawButtonPress (event : XIRawEvent)
| XI_KeyPress
| XI_unhandled
| Skipped.

(** One turn of the loop [while (XPending (...))], on an event taken while
    the screen has the size [width] x [height]. *)
Definition handle_event (e : XEvent) (width height : Z) (g : t) (w : World)
  : option (t * World * list drawn) :=
  match e with
  | Expose count =>
      if negb (count =? 0) then Some (g, w, [])
      else
        match redraw width height g with
        | Some (g1, d) => Some (g1, w, d)
        | None => None
        end
  | XI_RawMotion event =>
      match on_motion_event event g with
      | Some g1 => Some (g1, w, [])
      | None => None
      end
  | XI_RawButtonPress event => on_button_event width height g w
  | XI_KeyPress => Some (with_is_running g false, w, [])
  | XI_unhandled => Some (g, w, [])
  | Skipped => Some (g, w, [])
  end.

Fixpoint process_pending (pending : list (XEvent * Z * Z)) (g : t)
    (w : World) : option (t * World * list drawn) :=
  match pending with
  | [] => Some (g, w, [])
  | (e, width, height) :: rest =>
      match handle_event e width height g w with
      | Some (g1, w1, d1) =>
          match process_pending rest g1 w1 with
          | Some (g2, w2, d2) => Some (g2, w2, d1 ++ d2)
          | None => None
          end
      | None => None
      end
  end.

(** [timer_signal], with the singleton instance [g]: the clock, then the
    events that are pending. *)
Definition timer_signal (pending : list (XEvent * Z * Z)) (g : t)
    (w : World) : option (t * World * list drawn) :=
  process_pending pending (clock_tick g) w.

End Events.

(** The constructor, on a server that has the X Input extension and a
    font.  [target_x0] and [target_y0] are what the memory of the two
    arrays holds before [setup_zone]; [final_step] starts [false]. *)
Definition new (calibrator0 : Calibrator) (target_x0 target_y0 : list Z)
    (width height : Z) (w : World) : (thrown + t) * World :=
  let g :=
    mk calibrator0 (-1) (-1)
      (get_min_x calibrator0) (get_min_y calibrator0)
      (get_max_x calibrator0) (get_max_y calibrator0)
      target_x0 target_y0 0 0 0 false true in
  let g1 := setup_zone width height g in
  match reset_ebeam_calibration (calibrator g1) w with
  | (false, w1) => (inl (runtime_error "Unable to reset calibration."), w1)
  | (true, w1) =>
      match reset_evdev_calibration (calibrator g1) w1 with
      | (false, w2) => (inl (runtime_error "Unable to reset calibration."), w2)
      | (true, w2) => (inr g1, w2)
      end
  end.

End GuiCalibratorX11.

(** ** States of the calibration window *)

(** A window that collects clicks: the arrays have [NUM_POINTS] elements,
    the count of clicks is within [0 .. 4], below 4 until the final step,
    and each tuple accepted so far holds the target of its rank as its
    screen point. *)
Definition collecting (g : GuiCalibratorX11.t) : Prop :=
  let c := GuiCalibratorX11.calibrator g in
  length (GuiCalibratorX11.target_x g) = NUM_POINTS
  ∧ length (GuiCalibratorX11.target_y g) = NUM_POINTS
  ∧ length (tuple (tuples c)) = NUM_POINTS
  ∧ 0 <= get_numclicks c <= Z.of_nat NUM_POINTS
  ∧ (GuiCalibratorX11.final_step g = false →
     get_numclicks c < Z.of_nat NUM_POINTS)
  ∧ ∀ j t, Z.of_nat j < get_numclicks c →
           tuple (tuples c) !! j = Some t →
           GuiCalibratorX11.target_x g !! j = Some (scr_x t)
           ∧ GuiCalibratorX11.target_y g !! j = Some (scr_y t).

(** ** Sessions used as examples *)

(** A session of driver [/sys/ebeam/], default precision and threshold, on a
    1024x768 screen, with the tuples and the matrix given. *)
Definition session (ts : Tuples) (h : list Z) : Calibrator :=
  mkCalibrator 9 "/sys/ebeam/" PRECISION THR_DOUBLECLICK ts h
    false 0 0 1023 767 1024 768 None None.

(** Four clicks on the targets of the full screen, device and screen equal,
    and the identity matrix at precision 12. *)
Definition identity_clicks : Tuples :=
  mkTuples 4 [mkTuple 128 96 128 96; mkTuple 128 671 128 671;
              mkTuple 895 96 895 96; mkTuple 895 671 895 671].

Definition identity_H : list Z :=
  [10 ^ 12; 0; 0; 0; 10 ^ 12; 0; 0; 0; 10 ^ 12].




(** One click accepted at device point [(1000, 2000)]; the three other
    slots of the array hold what an earlier run left. *)
Definition one_click : Tuples :=
  mkTuples 1 [mkTuple 1000 2000 128 96; mkTuple 0 0 0 0;
              mkTuple 0 0 0 0; mkTuple 0 0 0 0].

(** Exact arithmetic in place of [long double]: no rounding. *)
Definition exact (q : Q) : Q := q.

(** A solver that answers every system with the identity homography,
    which solves the system of [identity_clicks]. *)
Definition identity_decomp (A : list (list Z)) : option unit := Some tt.

Definition identity_solve (LU : unit) (b : list Z) : option (list Q) :=
  Some [1; 0; 0; 0; 1; 0; 0; 0]%Q.

(** The version of the package, as its RPM description has it. *)
Definition version_0_9 : string := "0.9".

(** The names the driver shows under its directory. *)
Definition driver_names : list string :=
  ["calibrated"; "min_x"; "min_y"; "max_x"; "max_y";
   "h1"; "h2"; "h3"; "h4"; "h5"; "h6"; "h7"; "h8"; "h9"].

(** A driver calibrated for the zone [100..899] x [100..899] with the
    identity matrix, no state file yet. *)
Definition driver_files : gmap string string :=
  list_to_map
    [("/sys/ebeam/calibrated", "1");
     ("/sys/ebeam/min_x", "100"); ("/sys/ebeam/min_y", "100");
     ("/sys/ebeam/max_x", "899"); ("/sys/ebeam/max_y", "899");
     ("/sys/ebeam/h1", "1000000000000"); ("/sys/ebeam/h2", "0");
     ("/sys/ebeam/h3", "0"); ("/sys/ebeam/h4", "0");
     ("/sys/ebeam/h5", "1000000000000"); ("/sys/ebeam/h6", "0");
     ("/sys/ebeam/h7", "0"); ("/sys/ebeam/h8", "0");
     ("/sys/ebeam/h9", "1000000000000")].

Definition driver_world : World :=
  mkWorld driver_files ∅ {["/sys/ebeam/" := driver_names]} ∅ [] [].

(** No driver directory, and a state file written earlier. *)
Definition stale_world : World :=
  mkWorld {["/tmp/state" := "0.8"]} ∅ ∅ ∅ [] [].

(** The session of [ebeam_state --save /tmp/state] and of
    [ebeam_state --restore /tmp/state]. *)
Definition saving : Calibrator :=
  mkCalibrator 9 "/sys/ebeam/" PRECISION THR_DOUBLECLICK
    (mkTuples 0 (replicate 4 (mkTuple 0 0 0 0))) (replicate 9 0)
    false 0 0 1023 767 1024 768 None (Some "/tmp/state").

Definition restoring : Calibrator :=
  mkCalibrator 9 "/sys/ebeam/" PRECISION THR_DOUBLECLICK
    (mkTuples 0 (replicate 4 (mkTuple 0 0 0 0))) (replicate 9 0)
    false 0 0 1023 767 1024 768 (Some "/tmp/state") None.

(** The world after [ebeam_state --save /tmp/state] on [driver_world]. *)
Definition saved_world : World :=
  snd (save_state version_0_9 "/tmp/state" saving driver_world).


(** A decomposition that refuses every matrix. *)
Definition refusing_decomp (A : list (list Z)) : option unit := None.

(** The four clicks of [identity_clicks] and a matrix still to compute. *)
Definition fresh_session : Calibrator :=
  session identity_clicks (replicate 9 0).

(** A state file that stops after the four bounds, and one whose tag is
    followed by a word that is no number, beside the driver of
    [driver_world]. *)
Definition short_world : World :=
  mkWorld
    (<["/tmp/state" := lines_before EmptyString
                         ("0.9" :: map print_integer [0; 1023; 0; 767])]>
       driver_files)
    ∅ {["/sys/ebeam/" := driver_names]} ∅ [] [].

Definition garbled_world : World :=
  mkWorld (<["/tmp/state" := "0.9" +:+ nl +:+ "full"]> driver_files)
    ∅ {["/sys/ebeam/" := driver_names]} ∅ [] [].

(** The four clicks of [identity_clicks] with the identity matrix computed
    for them. *)
Definition calibrated_session : Calibrator :=
  session identity_clicks identity_H.

(** A driver of an older kernel module, whose directory has no [h9]. *)
Definition partial_driver_world : World :=
  mkWorld driver_files ∅
    {["/sys/ebeam/" := ["calibrated"; "min_x"; "min_y"; "max_x"; "max_y";
                        "h1"; "h2"; "h3"; "h4"; "h5"; "h6"; "h7"; "h8"]]}
    ∅ [] [].

(** * Properties *)

(** ** Machine integers *)

Module MachineFacts.

Lemma pow2_double w : 0 < w -> 2 ^ w = 2 * 2 ^ (w - 1).
Proof.
  intros Hw. replace w with (Z.succ (w - 1)) at 1 by lia.
  apply Z.pow_succ_r. lia.
Qed.

Lemma wrap_range w z : 0 < w -> - 2 ^ (w - 1) <= wrap w z < 2 ^ (w - 1).
Proof.
  intros Hw. unfold wrap.
  pose proof (pow2_double w Hw) as H2.
  assert (Hp : 0 < 2 ^ (w - 1)) by (apply Z.pow_pos_nonneg; lia).
  pose proof (Z.mod_pos_bound (z + 2 ^ (w - 1)) (2 ^ w)) as Hb. lia.
Qed.

Lemma wrap_id w z : 0 < w -> - 2 ^ (w - 1) <= z < 2 ^ (w - 1) -> wrap w z = z.
Proof.
  intros Hw Hz. unfold wrap.
  pose proof (pow2_double w Hw) as H2.
  rewrite Z.mod_small; lia.
Qed.

Lemma to_int_id z : is_int z -> to_int z = z.
Proof.
  unfold is_int, INT_MIN, INT_MAX. intros Hz. apply wrap_id; simpl; lia.
Qed.

Lemma to_long_long_id z : is_long_long z -> to_long_long z = z.
Proof.
  unfold is_long_long, LLONG_MIN, LLONG_MAX. intros Hz.
  apply wrap_id; simpl; lia.
Qed.

Lemma to_int_is_int z : is_int (to_int z).
Proof.
  unfold is_int, INT_MIN, INT_MAX, to_int.
  pose proof (wrap_range 32 z eq_refl) as Hr. simpl in Hr. lia.
Qed.

Lemma abs_id z : INT_MIN < z <= INT_MAX -> abs z = Z.abs z.
Proof.
  unfold abs, INT_MIN, INT_MAX. intros Hz. apply to_int_id.
  unfold is_int, INT_MIN, INT_MAX. lia.
Qed.

(** The doubled divisor of [test_H] is even, whatever the wrap-around. *)
Lemma to_long_long_double d : exists k, to_long_long (2 * d) = 2 * k.
Proof.
  unfold to_long_long, wrap.
  exists ((d + 2 ^ 62) mod 2 ^ 63 - 2 ^ 62).
  change (2 ^ (64 - 1)) with (2 * 2 ^ 62).
  change (2 ^ 64) with (2 * 2 ^ 63).
  replace (2 * d + 2 * 2 ^ 62) with (2 * (d + 2 ^ 62)) by ring.
  rewrite Z.mul_mod_distr_l by lia. ring.
Qed.

Lemma div_long_long_even a d :
  div_long_long a (to_long_long (2 * d))
  = if to_long_long (2 * d) =? 0 then None
    else Some (Z.quot a (to_long_long (2 * d))).
Proof.
  unfold div_long_long.
  destruct (to_long_long_double d) as [k Hk]. rewrite Hk.
  destruct (2 * k =? 0) eqn:E0; [reflexivity|].
  replace (2 * k =? -1) with false by (symmetry; apply Z.eqb_neq; lia).
  rewrite andb_false_r. reflexivity.
Qed.

End MachineFacts.
Import MachineFacts.

(** ** Replay validation *)

Section ReplayFacts.

Variable c : Calibrator.

Lemma replay_coord_formula a t :
  replay_coord c a t
  = if to_long_long (2 * replay_div c t) =? 0 then None
    else Some (to_int (Z.quot (replay_num c a t)
                              (to_long_long (2 * replay_div c t)))).
Proof.
  unfold replay_coord. rewrite div_long_long_even.
  destruct (to_long_long (2 * replay_div c t) =? 0); reflexivity.
Qed.

(** The body of the loop, its binds written out. *)
Lemma test_point_body p :
  test_point c p
  = match tuple (tuples c) !! p with
    | None => None
    | Some t =>
        if replay_div c t =? 0 then Some (false, [])
        else
          match replay_coord c 0 t with
          | None => None
          | Some x =>
              match replay_coord c 3 t with
              | None => None
              | Some y =>
                  if negb (x =? scr_x t) || negb (y =? scr_y t)
                  then Some (false, [bad_point_message p t x y])
                  else Some (true, [])
              end
          end
    end.
Proof. reflexivity. Qed.

Lemma test_point_pass p msgs :
  test_point c p = Some (true, msgs)
  ↔ msgs = [] ∧ ∃ t, tuple (tuples c) !! p = Some t ∧ reproduces c t.
Proof.
  rewrite test_point_body. unfold reproduces. split.
  - destruct (tuple (tuples c) !! p) as [t|] eqn:Et; [|discriminate].
    destruct (replay_div c t =? 0) eqn:Ed; [discriminate|].
    destruct (replay_coord c 0 t) as [x|] eqn:Hx; [|discriminate].
    destruct (replay_coord c 3 t) as [y|] eqn:Hy; [|discriminate].
    destruct (x =? scr_x t) eqn:Ex; [|discriminate].
    destruct (y =? scr_y t) eqn:Ey; [|discriminate].
    cbn [negb orb]. intros [= <-]. split; [reflexivity|]. exists t.
    apply Z.eqb_neq in Ed. apply Z.eqb_eq in Ex, Ey. subst x y.
    split; [reflexivity|]. split; [exact Ed|]. split; assumption.
  - intros [-> (t & Et & Hd & Hx & Hy)]. rewrite Et.
    apply Z.eqb_neq in Hd. rewrite Hd, Hx, Hy.
    rewrite !Z.eqb_refl. reflexivity.
Qed.



(** The loop succeeds exactly when each of its turns passes. *)
Lemma test_H_from_success n : ∀ p,
  fst <$> test_H_from c p n = Some SUCCESS
  ↔ ∀ i, (i < n)%nat →
      ∃ t, tuple (tuples c) !! (p + i)%nat = Some t ∧ reproduces c t.
Proof.
  induction n as [|n IH]; intros p; simpl.
  - split; [intros _ i Hi; lia | reflexivity].
  - destruct (test_point c p) as [[[] msgs]|] eqn:Ep.
    + rewrite IH. apply test_point_pass in Ep as [_ Hp]. split.
      * intros Hall [|i] Hi.
        -- rewrite Nat.add_0_r. exact Hp.
        -- replace (p + S i)%nat with (S p + i)%nat by lia. apply Hall. lia.
      * intros Hall i Hi. replace (S p + i)%nat with (p + S i)%nat by lia.
        apply Hall. lia.
    + simpl. split; [discriminate|]. intros Hall.
      destruct (Hall 0%nat ltac:(lia)) as (t & Et & Hr).
      rewrite Nat.add_0_r in Et.
      assert (Hpass : test_point c p = Some (true, [])).
      { apply test_point_pass. eauto. }
      congruence.
    + simpl. split; [discriminate|]. intros Hall.
      destruct (Hall 0%nat ltac:(lia)) as (t & Et & Hr).
      rewrite Nat.add_0_r in Et.
      assert (Hpass : test_point c p = Some (true, [])).
      { apply test_point_pass. eauto. }
      congruence.
Qed.


End ReplayFacts.




(** ** The calibration session *)

Section Debounce.

Variables (X Y : Z) (c : Calibrator).

Lemma near_test t :
  in_reach X Y t →
  (abs (to_int (X - dev_X t)) <=? threshold_doubleclick c)
  && (abs (to_int (Y - dev_Y t)) <=? threshold_doubleclick c) = true
  ↔ near X Y (threshold_doubleclick c) t.
Proof.
  intros [HX HY]. unfold near.
  rewrite !to_int_id by (unfold is_int; lia).
  rewrite !abs_id by assumption.
  rewrite andb_true_iff, !Z.leb_le. reflexivity.
Qed.

(** The loop returns, and it reports a double click exactly when one of
    the tuples it visits is near. *)
Lemma double_click_spec i :
  (i ≤ length (tuple (tuples c)))%nat →
  Forall (in_reach X Y) (take i (tuple (tuples c))) →
  ∃ b, double_click X Y c i = Some b
       ∧ (b = true
          ↔ Exists (near X Y (threshold_doubleclick c))
              (take i (tuple (tuples c)))).
Proof.
  induction i as [|j IH]; intros Hlen Hreach.
  - exists false. simpl. split; [reflexivity|].
    rewrite Exists_nil. split; [discriminate|tauto].
  - destruct (lookup_lt_is_Some_2 (tuple (tuples c)) j) as [t Ht]; [lia|].
    rewrite (take_S_r _ _ _ Ht) in *.
    apply Forall_app in Hreach as [Hj Ht'].
    apply Forall_inv in Ht'.
    simpl. rewrite Ht. simpl.
    pose proof (near_test t Ht') as Hnear.
    destruct ((abs (to_int (X - dev_X t)) <=? threshold_doubleclick c)
              && (abs (to_int (Y - dev_Y t)) <=? threshold_doubleclick c)).
    + exists true. split; [reflexivity|]. split; [|reflexivity].
      intros _. apply Exists_app. right. apply Exists_cons_hd.
      apply Hnear. reflexivity.
    + destruct (IH ltac:(lia) Hj) as (b & Hb & Hiff).
      exists b. split; [exact Hb|]. rewrite Hiff, Exists_app.
      split; [tauto|]. intros [He|He]; [exact He|].
      apply Exists_cons in He as [He|He].
      * apply Hnear in He. discriminate.
      * apply Exists_nil in He. contradiction.
Qed.

End Debounce.

(** C4.  In a collecting state (fewer than four accepted points) with a
    threshold other than zero, a click within the threshold, on each axis,
    of an accepted point returns [FAILURE] and leaves the session as it
    was; any other click returns [SUCCESS], is appended to the accepted
    points, and the count grows by one.  The differences of device
    coordinates are taken to fit [int]. *)
Theorem add_click_debounce (X Y x y : Z) (c : Calibrator) :
  threshold_doubleclick c ≠ 0 →
  length (tuple (tuples c)) = NUM_POINTS →
  0 <= num (tuples c) < Z.of_nat NUM_POINTS →
  Forall (in_reach X Y) (accepted c) →
  (Exists (near X Y (threshold_doubleclick c)) (accepted c) →
   add_click X Y x y c = Some (FAILURE, c))
  ∧ (¬ Exists (near X Y (threshold_doubleclick c)) (accepted c) →
     ∃ c', add_click X Y x y c = Some (SUCCESS, c')
           ∧ num (tuples c') = num (tuples c) + 1
           ∧ accepted c' = accepted c ++ [mkTuple X Y x y]
           ∧ c' = with_tuples c (tuples c')).
Proof.
  intros Hthr Hlen Hnum Hreach. unfold accepted in *.
  unfold NUM_POINTS in *.
  destruct (double_click_spec X Y c (Z.to_nat (num (tuples c))))
    as (b & Hb & Hiff); [lia|exact Hreach|].
  assert (Hstore :
    (0 <=? num (tuples c))
    && (num (tuples c) <? Z.of_nat (length (tuple (tuples c)))) = true).
  { rewrite Hlen. apply andb_true_iff. split; [apply Z.leb_le|apply Z.ltb_lt]; lia. }
  assert (Hnone : ¬ (0 < threshold_doubleclick c ∧ 0 < num (tuples c)) →
                  ¬ Exists (near X Y (threshold_doubleclick c))
                      (take (Z.to_nat (num (tuples c))) (tuple (tuples c)))).
  { intros Hoff Hex. apply Exists_exists in Hex as (t & Hin & Hn1 & _).
    destruct (Z.to_nat (num (tuples c))) eqn:En.
    - rewrite take_0 in Hin. apply elem_of_nil in Hin. exact Hin.
    - apply Hoff. pose proof (Z.abs_nonneg (X - dev_X t)). lia. }
  split.
  - intros Hex. unfold add_click.
    destruct ((0 <? threshold_doubleclick c) && (0 <? num (tuples c))) eqn:Eon.
    + rewrite Hb. apply Hiff in Hex. subst b. reflexivity.
    + exfalso. apply Hnone; [|exact Hex].
      apply andb_false_iff in Eon. rewrite !Z.ltb_ge in Eon. lia.
  - intros Hnex.
    exists (with_tuples c
              (mkTuples (num (tuples c) + 1)
                 (<[Z.to_nat (num (tuples c)) := mkTuple X Y x y]>
                    (tuple (tuples c))))).
    split; [|split; [reflexivity|split; [|reflexivity]]].
    + unfold add_click.
      assert (Hdup : (if (0 <? threshold_doubleclick c) && (0 <? num (tuples c))
                      then double_click X Y c (Z.to_nat (num (tuples c)))
                      else Some false) = Some false).
      { destruct ((0 <? threshold_doubleclick c) && (0 <? num (tuples c)));
          [|reflexivity].
        rewrite Hb. destruct b; [|reflexivity].
        exfalso. apply Hnex, Hiff. reflexivity. }
      rewrite Hdup. simpl. rewrite Hstore.
      rewrite to_int_id by (unfold is_int, INT_MIN, INT_MAX; lia). reflexivity.
    + simpl.
      replace (Z.to_nat (num (tuples c) + 1))
        with (S (Z.to_nat (num (tuples c)))) by lia.
      rewrite (take_S_r _ _ (mkTuple X Y x y)).
      * rewrite take_insert_ge by lia. reflexivity.
      * apply list_lookup_insert_eq. lia.
Qed.

(** With threshold 16 and one point accepted at [(1000, 2000)]: a click at
    [(+15, -15)] of it is rejected, a click at [(+17, +17)] is accepted. *)
Lemma add_click_debounce_witness :
  add_click 1015 1985 128 671 (session one_click identity_H)
  = Some (FAILURE, session one_click identity_H)
  ∧ ∃ c', add_click 1017 2017 128 671 (session one_click identity_H)
          = Some (SUCCESS, c')
          ∧ num (tuples c') = 2
          ∧ accepted c' = [mkTuple 1000 2000 128 96; mkTuple 1017 2017 128 671].
Proof.
  split.
  - apply (add_click_debounce 1015 1985 128 671 (session one_click identity_H)).
    + vm_compute. discriminate.
    + reflexivity.
    + vm_compute. split; [discriminate|reflexivity].
    + apply Forall_cons. split; [|apply Forall_nil_2].
      vm_compute. repeat split; discriminate.
    + apply Exists_cons_hd. vm_compute. split; discriminate.
  - destruct (add_click_debounce 1017 2017 128 671
                (session one_click identity_H)) as [_ Hadd].
    + vm_compute. discriminate.
    + reflexivity.
    + vm_compute. split; [discriminate|reflexivity].
    + apply Forall_cons. split; [|apply Forall_nil_2].
      vm_compute. repeat split; discriminate.
    + destruct Hadd as (c' & Hc' & Hnum & Hacc & _).
      * intros Hex. apply Exists_cons in Hex as [[Hx _]|Hex].
        -- vm_compute in Hx. apply Hx. reflexivity.
        -- apply Exists_nil in Hex. exact Hex.
      * exists c'. split; [exact Hc'|]. split; [exact Hnum|exact Hacc].
Defined.

(** ** The end of the interactive part *)

(** C10.  With a count of correspondences other than four, [finish]
    returns [FAILURE] at once: the session, with its matrix [H] and its
    tuples, is the one it was given, and the environment only gains the
    line of the error; no solve, quantization or validation takes place. *)
Theorem finish_not_enough_points
    (long_double : Q → Q) (LU_factors : Type)
    (decomp : list (list Z) → option LU_factors)
    (solve : LU_factors → list Z → option (list Q))
    (c : Calibrator) (w : World) :
  get_numclicks c ≠ Z.of_nat NUM_POINTS →
  finish long_double LU_factors decomp solve c w
  = Some (FAILURE, c, eprint "ERROR: not enough points." w).
Proof.
  intros Hnum. unfold finish, get_numclicks in *.
  apply Z.eqb_neq in Hnum. rewrite Hnum. reflexivity.
Qed.

(** One click only: [finish] fails and the session is unchanged. *)
Lemma finish_not_enough_points_witness :
  finish exact unit identity_decomp identity_solve
    (session one_click identity_H)
    (mkWorld ∅ ∅ ∅ ∅ [] [])
  = Some (FAILURE, session one_click identity_H,
          mkWorld ∅ ∅ ∅ ∅ [] ["ERROR: not enough points."]).
Proof.
  apply (finish_not_enough_points exact unit identity_decomp identity_solve
           (session one_click identity_H) (mkWorld ∅ ∅ ∅ ∅ [] [])).
  vm_compute. discriminate.
Defined.

(** ** The fixed-point codec *)

Module CodecFacts.

Lemma Qtruncate_floor q : (0 <= q)%Q → Qtruncate q = Qfloor q.
Proof.
  destruct q as [n d]. unfold Qle, Qtruncate, Qfloor. simpl. intros Hn.
  apply Z.quot_div_nonneg; lia.
Qed.

Lemma Qtruncate_ceiling q : (q <= 0)%Q → Qtruncate q = Qceiling q.
Proof.
  destruct q as [n d]. unfold Qle, Qtruncate, Qceiling, Qfloor. simpl.
  intros Hn.
  replace n with (- - n) at 1 by lia.
  rewrite Z.quot_opp_l by lia.
  rewrite Z.quot_div_nonneg by lia. reflexivity.
Qed.

Lemma long_long_of_float_in_range q :
  is_long_long (Qtruncate q) → long_long_of_float q = Qtruncate q.
Proof.
  unfold is_long_long, long_long_of_float. intros [Hlo Hhi].
  apply Z.leb_le in Hlo, Hhi. rewrite Hlo, Hhi. reflexivity.
Qed.

Lemma pow10_nonneg p : (0 <= pow10 p)%Q.
Proof. apply Qpower_0_le. discriminate. Qed.

(** The powers of ten that fit [long long] convert to themselves. *)
Lemma long_long_of_pow10 p :
  0 <= p <= 18 → long_long_of_float (pow10 p) = 10 ^ p.
Proof.
  intros Hp. replace p with (Z.of_nat (Z.to_nat p)) by lia.
  assert (Hn : (Z.to_nat p < 19)%nat) by lia.
  revert Hn. generalize (Z.to_nat p). intros n Hn.
  do 19 (destruct n as [|n]; [vm_compute; reflexivity|]). lia.
Qed.

End CodecFacts.
Import CodecFacts.



(** C7.  After every successful [find_H] at a precision [P] from 0 to 18,
    [H[8]] is [10^P]: whatever the solver returns, the entry is assigned
    the scale factor and is no part of the solution. *)
Theorem find_H_scale_factor
    (long_double : Q → Q) (LU_factors : Type)
    (decomp : list (list Z) → option LU_factors)
    (solve : LU_factors → list Z → option (list Q))
    (c c' : Calibrator) (msgs : list string) :
  length (H c) = 9%nat →
  0 <= precision c <= 18 →
  find_H long_double LU_factors decomp solve c = (SUCCESS, c', msgs) →
  H c' !! 8%nat = Some (10 ^ precision c).
Proof.
  intros Hlen Hp. unfold find_H.
  destruct (decomp _) as [LU|]; [|discriminate].
  destruct (solve LU _) as [h|]; [|discriminate].
  intros [= <- _]. unfold with_H. cbn [H].
  rewrite long_long_of_pow10 by exact Hp.
  apply list_lookup_insert_eq.
  rewrite !length_insert, Hlen. lia.
Qed.

(** The solver stub answers the system of [identity_clicks]: [find_H]
    fills the identity matrix scaled by [10^12]. *)
Lemma find_H_scale_factor_witness :
  ∃ c', find_H exact unit identity_decomp identity_solve
          (session identity_clicks (replicate 9 0))
        = (SUCCESS, c', [])
        ∧ H c' = identity_H
        ∧ H c' !! 8%nat = Some (10 ^ 12).
Proof.
  eexists. split; [vm_compute; reflexivity|]. split; [reflexivity|].
  apply (find_H_scale_factor exact unit identity_decomp identity_solve
           (session identity_clicks (replicate 9 0)) _ []).
  - reflexivity.
  - vm_compute. split; discriminate.
  - vm_compute. reflexivity.
Defined.

(** ** Synchronization toward the X server *)

(** C9, as amended.  When [zoned] is true and the atoms are interned, the
    synchronization emits, after the axis calibration, the matrix
    [[W/screenW, 0, minX/screenW], [0, H'/screenH, minY/screenH], [0, 0, 1]]
    with [W = maxX - minX + 1] and [H' = maxY - minY + 1].  When [zoned] is
    false it emits the axis calibration and no matrix at all; the identity
    matrix is what [reset_evdev_calibration] emits. *)
Theorem sync_evdev_calibration_matrix (c : Calibrator) (w : World) :
  XInternAtom axis_calibration w = true →
  XInternAtom "FLOAT" w = true →
  XInternAtom transformation_matrix w = true →
  let axis :=
    mkXRequest (device_id c) axis_calibration "INTEGER"
      (XIntegers [to_uint32 (min_x c); to_uint32 (max_x c);
                  to_uint32 (min_y c); to_uint32 (max_y c)]) in
  (zoned c = true →
   INT_MIN <= max_x c - min_x c < INT_MAX →
   INT_MIN <= max_y c - min_y c < INT_MAX →
   ∃ w', sync_evdev_calibration c w = (SUCCESS, w')
         ∧ xrequests w'
           = xrequests w
             ++ [axis;
                 mkXRequest (device_id c) transformation_matrix "FLOAT"
                   (XFloats
                      [F_div (F_int (max_x c - min_x c + 1))
                             (F_int (screen_width c));
                       F_int 0;
                       F_div (F_int (min_x c)) (F_int (screen_width c));
                       F_int 0;
                       F_div (F_int (max_y c - min_y c + 1))
                             (F_int (screen_height c));
                       F_div (F_int (min_y c)) (F_int (screen_height c));
                       F_int 0; F_int 0; F_int 1])])
  ∧ (zoned c = false →
     ∃ w', sync_evdev_calibration c w = (SUCCESS, w')
           ∧ xrequests w' = xrequests w ++ [axis])
  ∧ (∃ w', reset_evdev_calibration c w = (SUCCESS, w')
           ∧ xrequests w'
             = xrequests w
               ++ [mkXRequest (device_id c) axis_calibration "INTEGER"
                     (XIntegers []);
                   mkXRequest (device_id c) transformation_matrix "FLOAT"
                     (XFloats [F_int 1; F_int 0; F_int 0;
                               F_int 0; F_int 1; F_int 0;
                               F_int 0; F_int 0; F_int 1])]).
Proof.
  intros Haxis Hfloat Hmatrix axis.
  unfold sync_evdev_calibration, reset_evdev_calibration.
  rewrite Haxis. simpl.
  assert (Hfloat' : ∀ r, XInternAtom "FLOAT" (XIChangeProperty r w) = true)
    by (intros r; exact Hfloat).
  assert (Hmatrix' : ∀ r,
            XInternAtom transformation_matrix (XIChangeProperty r w) = true)
    by (intros r; exact Hmatrix).
  rewrite !Hfloat', !Hmatrix'. simpl.
  split; [|split].
  - intros Hz Hx Hy. rewrite Hz. eexists. split; [reflexivity|].
    simpl. rewrite <- app_assoc. simpl. unfold compute_XCTM.
    unfold INT_MIN, INT_MAX in *.
    rewrite !(to_int_id (_ - _)) by (unfold is_int, INT_MIN, INT_MAX; lia).
    rewrite !to_int_id by (unfold is_int, INT_MIN, INT_MAX; lia).
    reflexivity.
  - intros Hz. rewrite Hz. eexists. split; reflexivity.
  - eexists. split; [reflexivity|]. simpl. rewrite <- app_assoc. reflexivity.
Qed.

(** A zoned session (zone [100..899] x [100..899] of a 1024x768 screen)
    and the full-screen session, toward a server that interns every atom. *)
Lemma sync_evdev_calibration_matrix_witness :
  (∃ w', sync_evdev_calibration
           (mkCalibrator 9 "/sys/ebeam/" 12 16 identity_clicks identity_H
              true 100 100 899 899 1024 768 None None) driver_world
         = (SUCCESS, w')
         ∧ xrequests w'
           = [mkXRequest 9 axis_calibration "INTEGER"
                (XIntegers [100; 899; 100; 899]);
              mkXRequest 9 transformation_matrix "FLOAT"
                (XFloats [F_div (F_int 800) (F_int 1024); F_int 0;
                          F_div (F_int 100) (F_int 1024);
                          F_int 0; F_div (F_int 800) (F_int 768);
                          F_div (F_int 100) (F_int 768);
                          F_int 0; F_int 0; F_int 1])])
  ∧ (∃ w', sync_evdev_calibration (session identity_clicks identity_H)
             driver_world
           = (SUCCESS, w')
           ∧ xrequests w'
             = [mkXRequest 9 axis_calibration "INTEGER"
                  (XIntegers [0; 1023; 0; 767])]).
Proof.
  split.
  - apply (proj1 (sync_evdev_calibration_matrix
                    (mkCalibrator 9 "/sys/ebeam/" 12 16 identity_clicks
                       identity_H true 100 100 899 899 1024 768 None None)
                    driver_world eq_refl eq_refl eq_refl)).
    + reflexivity.
    + vm_compute. split; [discriminate|reflexivity].
    + vm_compute. split; [discriminate|reflexivity].
  - apply (proj1 (proj2 (sync_evdev_calibration_matrix
                           (session identity_clicks identity_H)
                           driver_world eq_refl eq_refl eq_refl))).
    reflexivity.
Defined.

(** C9, as stated, fails for a session that is not zoned: the
    synchronization succeeds and sends one request, the axis calibration;
    no request carries a transformation matrix, the identity included. *)
Lemma sync_unzoned_emits_no_matrix :
  let c := session identity_clicks identity_H in
  zoned c = false
  ∧ fst (sync_evdev_calibration c driver_world) = SUCCESS
  ∧ xrequests (snd (sync_evdev_calibration c driver_world))
    = [mkXRequest 9 axis_calibration "INTEGER" (XIntegers [0; 1023; 0; 767])]
  ∧ ∀ r, r ∈ xrequests (snd (sync_evdev_calibration c driver_world)) →
         x_data r ≠ XFloats set_XCTM_to_identity.
Proof.
  simpl. split; [reflexivity|]. split; [reflexivity|].
  assert (Hreq : xrequests (snd (sync_evdev_calibration
                                   (session identity_clicks identity_H)
                                   driver_world))
                 = [mkXRequest 9 axis_calibration "INTEGER"
                      (XIntegers [0; 1023; 0; 767])])
    by (vm_compute; reflexivity).
  split; [exact Hreq|]. rewrite Hreq. intros r Hr.
  apply list_elem_of_singleton in Hr. subst r. discriminate.
Qed.

(** ** Formatted output read back by formatted input *)

Module StdioFacts.

Lemma append_nil (b : string) : EmptyString +:+ b = b.
Proof. reflexivity. Qed.

Lemma append_cons (x : ascii) (a b : string) :
  String x a +:+ b = String x (a +:+ b).
Proof. reflexivity. Qed.

Lemma append_assoc (a b c : string) : (a +:+ b) +:+ c = a +:+ (b +:+ c).
Proof.
  induction a as [|x a IH]; [reflexivity|].
  rewrite !append_cons, IH. reflexivity.
Qed.

Lemma append_empty_r (a : string) : a +:+ EmptyString = a.
Proof.
  induction a as [|x a IH]; [reflexivity|]. rewrite append_cons, IH.
  reflexivity.
Qed.

(** The digit characters are the images of [pretty_N_char]. *)
Lemma digit_value_pretty (d : N) :
  (d < 10)%N → digit_value (pretty_N_char d) = Some (Z.of_N d).
Proof.
  intros Hd.
  destruct d as [|p]; [reflexivity|].
  do 4 (destruct p as [p|p|]; try reflexivity; try (exfalso; lia)).
Qed.

Lemma digit_not_space a d : digit_value a = Some d → is_space a = false.
Proof.
  unfold digit_value, is_space.
  destruct ((48 <=? _) && (_ <=? 57)) eqn:E; [|discriminate]. intros _.
  apply andb_true_iff in E as [E1 E2]. apply Z.leb_le in E1, E2.
  apply orb_false_iff. split.
  - apply Z.eqb_neq. lia.
  - apply andb_false_iff. right. apply Z.leb_gt. lia.
Qed.

Lemma digit_not_sign a d :
  digit_value a = Some d → Ascii.eqb a "-" = false ∧ Ascii.eqb a "+" = false.
Proof.
  intros Hd. split; apply Ascii.eqb_neq; intros ->; vm_compute in Hd;
    discriminate.
Qed.

(** Appending to the digits printed before [s] is printing before the
    longer string. *)
Lemma pretty_N_go_append (x : N) : ∀ s r,
  pretty_N_go x s +:+ r = pretty_N_go x (s +:+ r).
Proof.
  induction x as [x IH] using (well_founded_induction N.lt_wf_0).
  intros s r. destruct (decide (0 < x)%N) as [Hx|Hx].
  - rewrite (pretty_N_go_step x s), (pretty_N_go_step x (s +:+ r))
      by exact Hx.
    rewrite IH by (apply N.div_lt; lia). reflexivity.
  - replace x with 0%N by lia. rewrite !pretty_N_go_0. reflexivity.
Qed.

(** Scanning the digits printed for [x] yields [x]. *)
Lemma scan_digits_pretty_N_go (x : N) : ∀ s,
  scan_digits (pretty_N_go x s) 0 = scan_digits s (Z.of_N x).
Proof.
  induction x as [x IH] using (well_founded_induction N.lt_wf_0).
  intros s. destruct (decide (0 < x)%N) as [Hx|Hx].
  - rewrite pretty_N_go_step by exact Hx.
    rewrite IH by (apply N.div_lt; lia). simpl.
    rewrite digit_value_pretty by (apply N.mod_lt; lia).
    f_equal. rewrite N2Z.inj_div, N2Z.inj_mod. simpl.
    pose proof (Z.div_mod (Z.of_N x) 10). lia.
  - replace x with 0%N by lia. rewrite pretty_N_go_0. reflexivity.
Qed.

(** The digits printed for a positive number start with a digit. *)
Lemma pretty_N_go_head (x : N) : ∀ s,
  (0 < x)%N →
  ∃ a r d, pretty_N_go x s = String a r ∧ digit_value a = Some d.
Proof.
  induction x as [x IH] using (well_founded_induction N.lt_wf_0).
  intros s Hx. rewrite pretty_N_go_step by exact Hx.
  destruct (decide (0 < x `div` 10)%N) as [Hq|Hq].
  - apply IH; [apply N.div_lt; lia|exact Hq].
  - destruct (N.eq_0_gt_0_cases (x `div` 10)) as [E|E]; [|contradiction].
    rewrite E, pretty_N_go_0.
    eexists _, _, _. split; [reflexivity|].
    apply digit_value_pretty. apply N.mod_lt. lia.
Qed.

Lemma scan_digits_stop r acc : ends_number r → scan_digits r acc = (acc, r).
Proof.
  unfold ends_number. destruct r as [|a r]; [reflexivity|]. simpl.
  destruct (digit_value a); [discriminate|reflexivity].
Qed.

Lemma print_positive (p : positive) (r : string) :
  print_integer (Z.pos p) +:+ r = pretty_N_go (N.pos p) r.
Proof.
  unfold print_integer, pretty, pretty_Z, pretty, pretty_positive, pretty,
    pretty_N.
  destruct (decide (N.pos p = 0%N)) as [E|_]; [discriminate|].
  apply pretty_N_go_append.
Qed.

Lemma print_negative (p : positive) (r : string) :
  print_integer (Z.neg p) +:+ r = String "-" (pretty_N_go (N.pos p) r).
Proof.
  unfold print_integer, pretty, pretty_Z, pretty, pretty_positive, pretty,
    pretty_N.
  destruct (decide (N.pos p = 0%N)) as [E|_]; [discriminate|].
  rewrite append_assoc, append_cons, append_nil. f_equal.
  apply pretty_N_go_append.
Qed.

(** A printed integer starts with a character that is not white space. *)
Lemma print_integer_head (z : Z) (r : string) :
  ∃ a t, print_integer z +:+ r = String a t ∧ is_space a = false.
Proof.
  destruct z as [|p|p].
  - eexists _, _. split; reflexivity.
  - rewrite print_positive.
    destruct (pretty_N_go_head (N.pos p) r) as (a & t & d & -> & Hd); [lia|].
    eexists _, _. split; [reflexivity|]. exact (digit_not_space a d Hd).
  - rewrite print_negative. eexists _, _. split; reflexivity.
Qed.

Lemma skip_space_print_integer (z : Z) (r : string) :
  skip_space (print_integer z +:+ r) = print_integer z +:+ r.
Proof.
  destruct (print_integer_head z r) as (a & t & -> & Ha). simpl.
  rewrite Ha. reflexivity.
Qed.

(** [%d] and [%lld] read back what they print. *)
Lemma scan_integer_print (z : Z) (r : string) :
  ends_number r → scan_integer (print_integer z +:+ r) = Scanned z r.
Proof.
  intros Hr. unfold scan_integer. rewrite skip_space_print_integer.
  destruct z as [|p|p].
  - change (print_integer 0) with "0". rewrite append_cons, append_nil.
    simpl. rewrite (scan_digits_stop r _ Hr). reflexivity.
  - rewrite print_positive.
    destruct (pretty_N_go_head (N.pos p) r) as (a & t & d & Hgo & Hd); [lia|].
    pose proof (scan_digits_pretty_N_go (N.pos p) r) as Hscan.
    rewrite Hgo in *.
    destruct (digit_not_sign a d Hd) as [-> ->]. simpl orb. cbv iota.
    unfold starts_with_digit. rewrite Hd.
    rewrite Hscan, (scan_digits_stop r _ Hr). reflexivity.
  - rewrite print_negative.
    destruct (pretty_N_go_head (N.pos p) r) as (a & t & d & Hgo & Hd); [lia|].
    pose proof (scan_digits_pretty_N_go (N.pos p) r) as Hscan.
    rewrite Hgo in *.
    change (Ascii.eqb "-" "-") with true. simpl orb. cbv iota.
    unfold starts_with_digit. rewrite Hd.
    rewrite Hscan, (scan_digits_stop r _ Hr). reflexivity.
Qed.

Lemma scan_d_print (z : Z) (r : string) :
  is_int z → ends_number r → scan_d (print_integer z +:+ r) = Scanned z r.
Proof.
  intros Hz Hr. unfold scan_d. rewrite scan_integer_print by exact Hr.
  rewrite to_int_id by exact Hz. reflexivity.
Qed.

Lemma scan_lld_print (z : Z) (r : string) :
  is_long_long z → ends_number r →
  scan_lld (print_integer z +:+ r) = Scanned z r.
Proof.
  intros Hz Hr. unfold scan_lld. rewrite scan_integer_print by exact Hr.
  rewrite to_long_long_id by exact Hz. reflexivity.
Qed.

End StdioFacts.
Import StdioFacts.

(** ** The state file *)

Section StateFileFacts.

(** *** Reading the lines of a state file *)

Lemma lines_before_app rest t1 t2 :
  lines_before rest (t1 ++ t2) = lines_before (lines_before rest t2) t1.
Proof. unfold lines_before. apply foldr_app. Qed.

Lemma ends_number_nl r : ends_number (nl +:+ r).
Proof. reflexivity. Qed.

Lemma skip_space_nl r : skip_space (nl +:+ r) = skip_space r.
Proof. reflexivity. Qed.

(** Lines of printed integers before a text without leading white space
    have no leading white space. *)
Lemma skip_space_lines vs rest :
  skip_space rest = rest →
  skip_space (lines_before rest (map print_integer vs))
  = lines_before rest (map print_integer vs).
Proof.
  intros Hrest. destruct vs as [|v vs]; [exact Hrest|].
  simpl. apply skip_space_print_integer.
Qed.

Lemma fscanf_ints_lines setters : ∀ vs rest c k,
  length vs = length setters → Forall is_int vs → skip_space rest = rest →
  fscanf_ints setters (lines_before rest (map print_integer vs)) c k
  = (k + Z.of_nat (length vs),
     foldl (λ c' sv, fst sv c' (snd sv)) c (zip setters vs),
     rest).
Proof.
  induction setters as [|set setters IH]; intros vs rest c k Hlen Hvs Hrest.
  - destruct vs; [|discriminate]. simpl. rewrite Z.add_0_r. reflexivity.
  - destruct vs as [|v vs]; [discriminate|].
    apply Forall_cons in Hvs as [Hv Hvs].
    cbn [map lines_before foldr fscanf_ints].
    rewrite scan_d_print by (exact Hv || apply ends_number_nl).
    rewrite skip_space_nl.
    change (foldr (λ t acc, t +:+ nl +:+ acc) rest (map print_integer vs))
      with (lines_before rest (map print_integer vs)).
    rewrite skip_space_lines by exact Hrest.
    rewrite IH by (simpl in Hlen; try lia; assumption).
    cbn [zip zip_with foldl fst snd length]. f_equal. f_equal. lia.
Qed.

Lemma with_H_same c : with_H c (H c) = c.
Proof. destruct c. reflexivity. Qed.


Lemma scan_word_word tag : ∀ rest,
  no_space tag = true → scan_word (tag +:+ nl +:+ rest) = (tag, nl +:+ rest).
Proof.
  induction tag as [|a tag IH]; intros rest Htag; [reflexivity|].
  simpl in Htag. apply andb_true_iff in Htag as [Ha Htag].
  apply negb_true_iff in Ha.
  rewrite append_cons. simpl. rewrite Ha, IH by exact Htag. reflexivity.
Qed.

Lemma scan_s_word tag rest :
  is_word tag = true → scan_s (tag +:+ nl +:+ rest) = Scanned tag (nl +:+ rest).
Proof.
  unfold is_word, scan_s. destruct tag as [|a tag]; [discriminate|].
  intros Hword. apply andb_true_iff in Hword as [Htag _].
  pose proof (scan_word_word (String a tag) rest Htag) as Hscan.
  simpl in Htag. apply andb_true_iff in Htag as [Ha _].
  apply negb_true_iff in Ha.
  rewrite append_cons in *. simpl skip_space. rewrite Ha, Hscan. reflexivity.
Qed.


End StateFileFacts.

(** *** What the driver and the X server leave alone *)

Section WorldFacts.

Lemma read_field_success name msg scan set c w c' w' :
  read_field name msg scan set c w = (true, c', w') → w' = w.
Proof.
  unfold read_field. destruct (fopen_r _ w); [|discriminate].
  destruct (scan s); intros [= _ <-]; reflexivity.
Qed.

Lemma read_field_files name msg scan set c w :
  files (snd (read_field name msg scan set c w)) = files w.
Proof.
  unfold read_field. destruct (fopen_r _ w); [|reflexivity].
  destruct (scan s); reflexivity.
Qed.

Lemma read_H_from_files n : ∀ i c w,
  files (snd (read_H_from i n c w)) = files w.
Proof.
  induction n as [|n IH]; intros i c w; [reflexivity|].
  cbn [read_H_from].
  pose proof (read_field_files ("h" +:+ pretty (Z.of_nat i)) " for reading."
                scan_lld (set_H (i - 1)) c w) as Hf.
  destruct (read_field _ _ _ _ c w) as [[[] c1] w1]; cbn [snd] in Hf.
  - rewrite IH. exact Hf.
  - exact Hf.
Qed.

(** [get_ebeam_calibration] reads: the files are the ones it found. *)
Lemma get_ebeam_calibration_files c w :
  files (snd (get_ebeam_calibration c w)) = files w.
Proof.
  unfold get_ebeam_calibration.
  pose proof (read_field_files "min_x" "" scan_d with_min_x c w) as H1.
  destruct (read_field "min_x" _ _ _ c w) as [[[] c1] w1]; [|exact H1].
  pose proof (read_field_files "min_y" "" scan_d with_min_y c1 w1) as H2.
  destruct (read_field "min_y" _ _ _ c1 w1) as [[[] c2] w2];
    [|simpl in *; congruence].
  pose proof (read_field_files "max_x" "" scan_d with_max_x c2 w2) as H3.
  destruct (read_field "max_x" _ _ _ c2 w2) as [[[] c3] w3];
    [|simpl in *; congruence].
  pose proof (read_field_files "max_y" "" scan_d with_max_y c3 w3) as H4.
  destruct (read_field "max_y" _ _ _ c3 w3) as [[[] c4] w4];
    [|simpl in *; congruence].
  rewrite read_H_from_files. simpl in *. congruence.
Qed.








End WorldFacts.

(** *** Writing the state file *)

Section SaveFacts.

Variable VERSION : string.

Lemma fprintf_files path text w old :
  files w !! path = Some old →
  files (fprintf path text w) = <[path := old +:+ text]> (files w).
Proof.
  intros Hold. unfold fprintf, with_files. cbn [files].
  apply map_eq. intros k. destruct (decide (k = path)) as [->|Hk].
  - rewrite lookup_alter_eq, lookup_insert_eq, Hold. reflexivity.
  - rewrite lookup_alter_ne, lookup_insert_ne by congruence. reflexivity.
Qed.

Lemma print_H_from_files path c n : ∀ i w old,
  files w !! path = Some old →
  files (print_H_from path c i n w)
  = <[path := old +:+ lines_before EmptyString
                        (map print_integer (map (H_at c) (seq i n)))]>
      (files w).
Proof.
  induction n as [|n IH]; intros i w old Hold.
  - simpl. rewrite append_empty_r. symmetry. apply insert_id. exact Hold.
  - cbn [print_H_from seq map lines_before foldr].
    rewrite (IH (S i) _ (old +:+ print_integer (H_at c i) +:+ nl)).
    + rewrite (fprintf_files _ _ _ old Hold), insert_insert_eq.
      rewrite !append_assoc. reflexivity.
    + rewrite (fprintf_files _ _ _ old Hold). apply lookup_insert_eq.
Qed.

(** The three groups of [fprintf] append the fourteen lines. *)
Lemma print_state_files path c w old :
  files w !! path = Some old →
  files (print_state VERSION path c w)
  = <[path := old +:+ state_text VERSION c]> (files w).
Proof.
  intros Hold. unfold print_state.
  rewrite (print_H_from_files path c 9 0 _
             ((old +:+ VERSION +:+ nl)
              +:+ print_integer (min_x c) +:+ nl +:+ print_integer (max_x c)
              +:+ nl +:+ print_integer (min_y c) +:+ nl
              +:+ print_integer (max_y c) +:+ nl)).
  - rewrite (fprintf_files path _ _ (old +:+ VERSION +:+ nl)).
    + rewrite (fprintf_files path _ _ old Hold), !insert_insert_eq.
      f_equal. unfold state_text, state_tokens, state_numbers.
      rewrite map_app, app_comm_cons, lines_before_app.
      cbn [map lines_before foldr]. rewrite !append_assoc. reflexivity.
    + rewrite (fprintf_files path _ _ old Hold). apply lookup_insert_eq.
  - rewrite (fprintf_files path _ _ (old +:+ VERSION +:+ nl)).
    + apply lookup_insert_eq.
    + rewrite (fprintf_files path _ _ old Hold). apply lookup_insert_eq.
Qed.

Lemma fopen_w_files path w w1 :
  fopen_w path w = Some w1 →
  (path ∉ locked w) ∧ files w1 = <[path := EmptyString]> (files w).
Proof.
  unfold fopen_w. case_bool_decide; [discriminate|]. intros [= <-].
  split; [assumption|reflexivity].
Qed.

End SaveFacts.

(** The outcomes of the saving branch and the files each one leaves. *)
Lemma save_state_files (VERSION path : string) (c : Calibrator) (w : World) :
  match fopen_w path w with
  | None =>
      ∃ w', save_state VERSION path c w = (FAILURE, c, w')
            ∧ files w' = files w
  | Some w1 =>
      match get_ebeam_calibration c w1 with
      | (false, c1, _) =>
          ∃ w', save_state VERSION path c w = (FAILURE, c1, w')
                ∧ files w' = <[path := EmptyString]> (files w)
      | (true, c1, _) =>
          ∃ w', save_state VERSION path c w = (SUCCESS, c1, w')
                ∧ files w' = <[path := state_text VERSION c1]> (files w)
      end
  end.
Proof.
  unfold save_state. destruct (fopen_w path w) as [w1|] eqn:Eopen.
  - apply fopen_w_files in Eopen as [_ Hfiles].
    pose proof (get_ebeam_calibration_files c w1) as Hget.
    destruct (get_ebeam_calibration c w1) as [[[] c1] w2]; cbn [snd] in Hget.
    + eexists. split; [reflexivity|].
      rewrite (print_state_files VERSION path c1 w2 EmptyString).
      * rewrite Hget, Hfiles, insert_insert_eq. reflexivity.
      * rewrite Hget, Hfiles. apply lookup_insert_eq.
    + eexists. split; [reflexivity|]. cbn [eprint files].
      rewrite Hget, Hfiles. reflexivity.
  - eexists. split; reflexivity.
Qed.


(** C6, as amended.  The saving branch leaves the target file untouched
    when it cannot be opened for writing.  Once the file is opened it is
    empty; when the calibration of the driver cannot then be retrieved the
    branch fails and the target stays empty; when it is retrieved the
    target holds the complete text of fourteen lines.  No other file is
    changed in any of the three cases.  (The results of [fprintf] and
    [fclose] are not looked at.) *)
Theorem save_state_target_file (VERSION path : string) (c : Calibrator)
    (w : World) :
  match fopen_w path w with
  | None =>
      ∃ w', save_state VERSION path c w = (FAILURE, c, w')
            ∧ files w' = files w
  | Some w1 =>
      match get_ebeam_calibration c w1 with
      | (false, c1, _) =>
          ∃ w', save_state VERSION path c w = (FAILURE, c1, w')
                ∧ files w' = <[path := EmptyString]> (files w)
      | (true, c1, _) =>
          ∃ w', save_state VERSION path c w = (SUCCESS, c1, w')
                ∧ files w' = <[path := state_text VERSION c1]> (files w)
                ∧ length (state_tokens VERSION c1) = 14%nat
      end
  end.
Proof.
  pose proof (save_state_files VERSION path c w) as Hcases.
  destruct (fopen_w path w) as [w1|]; [|exact Hcases].
  destruct (get_ebeam_calibration c w1) as [[[] c1] w2]; [|exact Hcases].
  destruct Hcases as (w' & Heq & Hfiles). exists w'.
  split; [exact Heq|]. split; [exact Hfiles|reflexivity].
Qed.

(** C6, as stated, fails on [stale_world]: the state file written earlier
    holds ["0.8"], the driver directory is missing, the save fails, and
    the file is left empty: neither untouched nor complete. *)
Lemma save_failure_truncates_target :
  files stale_world !! "/tmp/state" = Some "0.8"
  ∧ fst (fst (save_state version_0_9 "/tmp/state" saving stale_world)) = FAILURE
  ∧ (files (snd (save_state version_0_9 "/tmp/state" saving stale_world)))
      !! "/tmp/state" = Some EmptyString.
Proof. vm_compute. repeat split. Qed.

(** *** Reading the state file back *)

Section RestoreFacts.

Variable VERSION : string.


End RestoreFacts.



(** *** The flag [zoned] after a restore *)

Lemma restore_state_zoned VERSION path c w c' w' :
  restore_state VERSION path c w = Some (SUCCESS, c', w') →
  zoned c' = negb (full_screen c').
Proof.
  unfold restore_state.
  destruct (fopen_r path w) as [text|]; [|discriminate].
  destruct (scan_s text) as [version rest| |]; try discriminate.
  destruct (9 <? String.length version)%nat; [discriminate|].
  destruct (fscanf_ints _ _ c 0) as [[r c1] rest1].
  destruct (negb (r =? 4)); [discriminate|].
  destruct (scan_H_from 0 9 rest1 c1) as [[] c2]; [|discriminate].
  destruct (set_ebeam_calibration _ _) as [[] w2]; [|discriminate].
  destruct (sync_evdev_calibration _ w2) as [[] w3]; [|discriminate].
  intros [= <- _]. reflexivity.
Qed.

(** C8.  After every successful restore, [zoned] is false exactly when
    [min_x] and [min_y] are zero, [max_x] is the screen width minus one and
    [max_y] the screen height minus one. *)
Theorem do_calib_io_zoned (VERSION : string) (c c' : Calibrator)
    (w w' : World) :
  ifile c ≠ None →
  do_calib_io VERSION c w = Some (SUCCESS, c', w') →
  is_int (screen_width c' - 1) → is_int (screen_height c' - 1) →
  zoned c' = false
  ↔ min_x c' = 0 ∧ min_y c' = 0
    ∧ max_x c' = screen_width c' - 1 ∧ max_y c' = screen_height c' - 1.
Proof.
  intros Hifile Hio Hw Hh.
  assert (Hz : zoned c' = negb (full_screen c')).
  { unfold do_calib_io in Hio.
    destruct (ifile c) as [inp|]; [|contradiction].
    destruct (ofile c) as [out|].
    - destruct (save_state VERSION out c w) as [[[] c1] w1]; [|discriminate].
      exact (restore_state_zoned _ _ _ _ _ _ Hio).
    - exact (restore_state_zoned _ _ _ _ _ _ Hio). }
  rewrite Hz, negb_false_iff. unfold full_screen.
  rewrite !to_int_id by assumption.
  rewrite !andb_true_iff, !Z.eqb_eq. tauto.
Qed.

(** The zone [100..899] x [100..899] restored on a 1024x768 screen: the
    session is zoned. *)
Lemma do_calib_io_zoned_witness :
  ∃ c' w',
    do_calib_io version_0_9 restoring saved_world = Some (SUCCESS, c', w')
    ∧ zoned c' = true
    ∧ (zoned c' = false
       ↔ min_x c' = 0 ∧ min_y c' = 0
         ∧ max_x c' = screen_width c' - 1 ∧ max_y c' = screen_height c' - 1).
Proof.
  eexists. eexists. split; [vm_compute; reflexivity|].
  split; [reflexivity|].
  eapply (do_calib_io_zoned version_0_9 restoring _ saved_world).
  - discriminate.
  - vm_compute. reflexivity.
  - vm_compute. split; discriminate.
  - vm_compute. split; discriminate.
Defined.


(** * Further properties of the code *)

(** ** The session: [add_click] and [reset_tuples] *)

(** The double-click loop returns whenever the tuples it visits are inside
    the array. *)
Lemma double_click_defined X Y c i :
  (i ≤ length (tuple (tuples c)))%nat → is_Some (double_click X Y c i).
Proof.
  induction i as [|j IH]; intros Hlen; [eexists; reflexivity|].
  destruct (lookup_lt_is_Some_2 (tuple (tuples c)) j) as [t Ht]; [lia|].
  cbn [double_click]. rewrite Ht. cbn [mbind option_bind].
  destruct (_ && _); [eexists; reflexivity|]. apply IH. lia.
Qed.

(** The store [tuples.tuple[num] = ...; tuples.num++] of [add_click]. *)
Lemma add_click_store X Y x y c :
  (if (0 <? threshold_doubleclick c) && (0 <? num (tuples c))
   then double_click X Y c (Z.to_nat (num (tuples c)))
   else Some false) = Some false →
  0 <= num (tuples c) < Z.of_nat (length (tuple (tuples c))) →
  add_click X Y x y c
  = Some (SUCCESS,
          with_tuples c
            (mkTuples (to_int (num (tuples c) + 1))
               (<[Z.to_nat (num (tuples c)) := mkTuple X Y x y]>
                  (tuple (tuples c))))).
Proof.
  intros Hdup Hnum. unfold add_click. rewrite Hdup. cbn [mbind option_bind].
  replace ((0 <=? num (tuples c))
           && (num (tuples c) <? Z.of_nat (length (tuple (tuples c)))))
    with true; [reflexivity|].
  symmetry. apply andb_true_iff. split; [apply Z.leb_le|apply Z.ltb_lt]; lia.
Qed.

(** With the threshold at zero, or below, the double-click detection is
    off: in a collecting state every click is stored, a repeat of an
    accepted point included. *)
Theorem add_click_threshold_off (X Y x y : Z) (c : Calibrator) :
  threshold_doubleclick c <= 0 →
  length (tuple (tuples c)) = NUM_POINTS →
  0 <= num (tuples c) < Z.of_nat NUM_POINTS →
  add_click X Y x y c
  = Some (SUCCESS,
          with_tuples c
            (mkTuples (num (tuples c) + 1)
               (<[Z.to_nat (num (tuples c)) := mkTuple X Y x y]>
                  (tuple (tuples c))))).
Proof.
  intros Hthr Hlen Hnum. unfold NUM_POINTS in *.
  rewrite add_click_store.
  - rewrite to_int_id by (unfold is_int, INT_MIN, INT_MAX; lia). reflexivity.
  - replace (0 <? threshold_doubleclick c) with false; [reflexivity|].
    symmetry. apply Z.ltb_ge. exact Hthr.
  - rewrite Hlen. exact Hnum.
Qed.

(** Threshold 0 and a point accepted at [(1000, 2000)]: a second click at
    the same device point is accepted. *)
Lemma add_click_threshold_off_witness :
  ∃ c', add_click 1000 2000 128 671
          (mkCalibrator 9 "/sys/ebeam/" 12 0 one_click identity_H
             false 0 0 1023 767 1024 768 None None)
        = Some (SUCCESS, c')
        ∧ num (tuples c') = 2.
Proof.
  eexists. split.
  - apply (add_click_threshold_off 1000 2000 128 671
             (mkCalibrator 9 "/sys/ebeam/" 12 0 one_click identity_H
                false 0 0 1023 767 1024 768 None None)).
    + vm_compute. discriminate.
    + reflexivity.
    + vm_compute. split; [discriminate|reflexivity].
  - reflexivity.
Defined.

(** After [reset_tuples] the next click is accepted whatever the array
    still holds and whatever the threshold: the tuples of the earlier run
    are not compared with. *)
Theorem add_click_after_reset (X Y x y : Z) (c : Calibrator) :
  length (tuple (tuples c)) = NUM_POINTS →
  add_click X Y x y (reset_tuples c)
  = Some (SUCCESS,
          with_tuples c
            (mkTuples 1 (<[0%nat := mkTuple X Y x y]> (tuple (tuples c))))).
Proof.
  intros Hlen. rewrite add_click_store.
  - reflexivity.
  - cbn [reset_tuples with_tuples tuples num].
    rewrite andb_false_r. reflexivity.
  - cbn [reset_tuples with_tuples tuples num tuple]. rewrite Hlen.
    unfold NUM_POINTS. lia.
Qed.

(** A full set of four clicks near [(1000, 2000)] is reset; a click at
    that very point is then accepted as the first of the new run. *)
Lemma add_click_after_reset_witness :
  ∃ c', add_click 1000 2000 128 96
          (reset_tuples
             (session (mkTuples 4 (replicate 4 (mkTuple 1000 2000 128 96)))
                identity_H))
        = Some (SUCCESS, c')
        ∧ num (tuples c') = 1.
Proof.
  eexists. split.
  - apply (add_click_after_reset 1000 2000 128 96
             (session (mkTuples 4 (replicate 4 (mkTuple 1000 2000 128 96)))
                identity_H)).
    reflexivity.
  - reflexivity.
Defined.

(** What [add_click] gives in a collecting state. *)
Lemma add_click_collecting (X Y x y : Z) (c : Calibrator) :
  length (tuple (tuples c)) = NUM_POINTS →
  0 <= num (tuples c) < Z.of_nat NUM_POINTS →
  ∃ r c',
    add_click X Y x y c = Some (r, c')
    ∧ c' = with_tuples c (tuples c')
    ∧ length (tuple (tuples c')) = NUM_POINTS
    ∧ 0 <= num (tuples c') <= Z.of_nat NUM_POINTS
    ∧ (r = FAILURE → c' = c)
    ∧ (r = SUCCESS →
       num (tuples c') = num (tuples c) + 1
       ∧ tuple (tuples c') !! Z.to_nat (num (tuples c))
         = Some (mkTuple X Y x y)
       ∧ ∀ j, j ≠ Z.to_nat (num (tuples c)) →
              tuple (tuples c') !! j = tuple (tuples c) !! j).
Proof.
  intros Hlen Hnum. unfold NUM_POINTS in *.
  destruct (double_click_defined X Y c (Z.to_nat (num (tuples c))))
    as [b Hb]; [lia|].
  assert (Hloop : ∃ dup,
            (if (0 <? threshold_doubleclick c) && (0 <? num (tuples c))
             then double_click X Y c (Z.to_nat (num (tuples c)))
             else Some false) = Some dup).
  { destruct (_ && _); [exists b; exact Hb|exists false; reflexivity]. }
  destruct Hloop as [[] Hdup].
  - exists FAILURE, c. unfold add_click. rewrite Hdup.
    split; [reflexivity|]. split; [destruct c; reflexivity|].
    split; [exact Hlen|]. split; [lia|]. split; [reflexivity|discriminate].
  - eexists SUCCESS, _. rewrite add_click_store by (exact Hdup || lia).
    split; [reflexivity|]. cbn [with_tuples tuples num tuple].
    rewrite to_int_id by (unfold is_int, INT_MIN, INT_MAX; lia).
    split; [reflexivity|]. split; [rewrite length_insert; exact Hlen|].
    split; [lia|]. split; [discriminate|]. intros _.
    split; [reflexivity|]. split.
    + apply list_lookup_insert_eq. lia.
    + intros j Hj. apply list_lookup_insert_ne. congruence.
Qed.

(** [add_click] in a collecting state always returns.  It never changes
    the matrix, the zone, the precision or the threshold; a rejected click
    leaves the whole session as it was; an accepted click changes the slot
    [num] of the array and nothing else in it, and the count stays within
    [0 .. 4]. *)
Theorem add_click_frame (X Y x y : Z) (c : Calibrator) :
  length (tuple (tuples c)) = NUM_POINTS →
  0 <= num (tuples c) < Z.of_nat NUM_POINTS →
  ∃ r c',
    add_click X Y x y c = Some (r, c')
    ∧ c' = with_tuples c (tuples c')
    ∧ length (tuple (tuples c')) = NUM_POINTS
    ∧ 0 <= num (tuples c') <= Z.of_nat NUM_POINTS
    ∧ (r = FAILURE → c' = c)
    ∧ (r = SUCCESS →
       num (tuples c') = num (tuples c) + 1
       ∧ tuple (tuples c') !! Z.to_nat (num (tuples c))
         = Some (mkTuple X Y x y)
       ∧ ∀ j, j ≠ Z.to_nat (num (tuples c)) →
              tuple (tuples c') !! j = tuple (tuples c) !! j).
Proof. exact (add_click_collecting X Y x y c). Qed.

(** The two outcomes on the session with one accepted point. *)
Lemma add_click_frame_witness :
  (∃ r c', add_click 1015 1985 128 671 (session one_click identity_H)
           = Some (r, c') ∧ (r = FAILURE → c' = session one_click identity_H))
  ∧ (∃ r c', add_click 1017 2017 128 671 (session one_click identity_H)
             = Some (r, c') ∧ H c' = identity_H).
Proof.
  split.
  - destruct (add_click_frame 1015 1985 128 671 (session one_click identity_H))
      as (r & c' & Hadd & _ & _ & _ & Hfail & _).
    + reflexivity.
    + vm_compute. split; [discriminate|reflexivity].
    + exists r, c'. split; [exact Hadd|exact Hfail].
  - destruct (add_click_frame 1017 2017 128 671 (session one_click identity_H))
      as (r & c' & Hadd & Hframe & _).
    + reflexivity.
    + vm_compute. split; [discriminate|reflexivity].
    + exists r, c'. split; [exact Hadd|]. rewrite Hframe. reflexivity.
Defined.

(** ** The replay: what [test_H] computes in range *)

Section ReplayInRange.

Variables (c : Calibrator) (t : Tuple).

Lemma row_fits_bounds a :
  row_fits c a t →
  - 2 ^ 60 <= H_at c a * dev_X t <= 2 ^ 60
  ∧ - 2 ^ 60 <= H_at c (a + 1) * dev_Y t <= 2 ^ 60
  ∧ - 2 ^ 60 <= H_at c a * dev_X t + H_at c (a + 1) * dev_Y t <= 2 ^ 60
  ∧ - 2 ^ 60 <= row_value c a t <= 2 ^ 60.
Proof.
  unfold row_fits, row_value.
  pose proof (Z.abs_mul (H_at c a) (dev_X t)) as H1.
  pose proof (Z.abs_mul (H_at c (a + 1)) (dev_Y t)) as H2.
  pose proof (Z.abs_nonneg (H_at c a * dev_X t)).
  pose proof (Z.abs_nonneg (H_at c (a + 1) * dev_Y t)).
  pose proof (Z.abs_nonneg (H_at c (a + 2))).
  generalize dependent (H_at c a * dev_X t).
  generalize dependent (H_at c (a + 1) * dev_Y t).
  generalize dependent (H_at c (a + 2)).
  intros h3 Hh3 p2 Hp2 Ha2 p1 Hp1 Ha1 Hfit. rewrite <- Hp1, <- Hp2 in Hfit.
  change (2 ^ 60) with 1152921504606846976 in *. lia.
Qed.

Lemma replay_div_in_range :
  row_fits c 6 t → replay_div c t = row_value c 6 t.
Proof.
  intros Hfit. destruct (row_fits_bounds 6 Hfit) as (H1 & H2 & H3 & H4).
  unfold replay_div, row_value in *. cbn [Nat.add] in *.
  change (2 ^ 60) with 1152921504606846976 in *.
  rewrite (to_long_long_id (H_at c 6 * dev_X t))
    by (unfold is_long_long, LLONG_MIN, LLONG_MAX; lia).
  rewrite (to_long_long_id (H_at c 7 * dev_Y t))
    by (unfold is_long_long, LLONG_MIN, LLONG_MAX; lia).
  rewrite (to_long_long_id (H_at c 6 * dev_X t + H_at c 7 * dev_Y t))
    by (unfold is_long_long, LLONG_MIN, LLONG_MAX; lia).
  apply to_long_long_id. unfold is_long_long, LLONG_MIN, LLONG_MAX. lia.
Qed.

Lemma replay_num_in_range a :
  row_fits c a t → row_fits c 6 t →
  replay_num c a t = 2 * row_value c a t + row_value c 6 t.
Proof.
  intros Hfit Hfit6. unfold replay_num. rewrite (replay_div_in_range Hfit6).
  destruct (row_fits_bounds a Hfit) as (H1 & H2 & H3 & H4).
  destruct (row_fits_bounds 6 Hfit6) as (_ & _ & _ & H6).
  unfold row_value in *.
  change (2 ^ 60) with 1152921504606846976 in *.
  rewrite (to_long_long_id (H_at c a * dev_X t))
    by (unfold is_long_long, LLONG_MIN, LLONG_MAX; lia).
  rewrite (to_long_long_id (H_at c (a + 1) * dev_Y t))
    by (unfold is_long_long, LLONG_MIN, LLONG_MAX; lia).
  rewrite (to_long_long_id (H_at c a * dev_X t + H_at c (a + 1) * dev_Y t))
    by (unfold is_long_long, LLONG_MIN, LLONG_MAX; lia).
  rewrite (to_long_long_id (_ + H_at c (a + 2)))
    by (unfold is_long_long, LLONG_MIN, LLONG_MAX; lia).
  rewrite (to_long_long_id (2 * _))
    by (unfold is_long_long, LLONG_MIN, LLONG_MAX; lia).
  apply to_long_long_id. unfold is_long_long, LLONG_MIN, LLONG_MAX. lia.
Qed.

(** The coordinate in range, for a positive divisor and a dividend that
    is not negative: the floor of [(2n + d) / (2d)]. *)
Lemma replay_coord_in_range a :
  row_fits c a t → row_fits c 6 t →
  0 < row_value c 6 t → 0 <= 2 * row_value c a t + row_value c 6 t →
  replay_coord c a t
  = Some (to_int ((2 * row_value c a t + row_value c 6 t)
                  / (2 * row_value c 6 t))).
Proof.
  intros Hfit Hfit6 Hd Hn. rewrite replay_coord_formula.
  rewrite (replay_num_in_range a Hfit Hfit6), (replay_div_in_range Hfit6).
  destruct (row_fits_bounds 6 Hfit6) as (_ & _ & _ & H6).
  change (2 ^ 60) with 1152921504606846976 in *.
  rewrite (to_long_long_id (2 * _))
    by (unfold is_long_long, LLONG_MIN, LLONG_MAX; lia).
  replace (2 * row_value c 6 t =? 0) with false
    by (symmetry; apply Z.eqb_neq; lia).
  rewrite Z.quot_div_nonneg by lia. reflexivity.
Qed.

End ReplayInRange.

(** When nothing overflows, the divisor [d] is positive and the numerator
    [n] is not negative, the coordinate [test_H] recomputes is the integer
    nearest to [n / d] (the upper one at a tie): it is within one half of
    the quotient. *)
Theorem replay_rounds_to_nearest (c : Calibrator) (a : nat) (t : Tuple) :
  row_fits c a t → row_fits c 6 t →
  0 < row_value c 6 t → 0 <= row_value c a t →
  let n := row_value c a t in
  let d := row_value c 6 t in
  let q := (2 * n + d) / (2 * d) in
  is_int q →
  replay_coord c a t = Some q ∧ 2 * n - d < 2 * d * q <= 2 * n + d.
Proof.
  intros Hfit Hfit6 Hd Hn n d q Hq. split.
  - rewrite (replay_coord_in_range c t a Hfit Hfit6 Hd) by lia.
    fold n d q. rewrite to_int_id by exact Hq. reflexivity.
  - subst q. pose proof (Z.mul_div_le (2 * n + d) (2 * d)) as Hle.
    pose proof (Z.mul_succ_div_gt (2 * n + d) (2 * d)) as Hgt. lia.
Qed.

(** A scale-and-offset matrix at precision 12 ([x = 0.8 X + 100]) on the
    device point [(37, 1000)]: [0.8 * 37 + 100 = 129.6] is replayed as
    [130]. *)
Lemma replay_rounds_to_nearest_witness :
  replay_coord
    (session identity_clicks
       [8 * 10 ^ 11; 0; 10 ^ 14; 0; 8 * 10 ^ 11; 10 ^ 14; 0; 0; 10 ^ 12])
    0 (mkTuple 37 1000 130 900)
  = Some 130.
Proof.
  apply (replay_rounds_to_nearest
           (session identity_clicks
              [8 * 10 ^ 11; 0; 10 ^ 14; 0; 8 * 10 ^ 11; 10 ^ 14; 0; 0; 10 ^ 12])
           0 (mkTuple 37 1000 130 900)).
  - vm_compute. discriminate.
  - vm_compute. discriminate.
  - reflexivity.
  - vm_compute. discriminate.
  - vm_compute. split; discriminate.
Defined.

(** A loop that succeeds has printed nothing. *)
Lemma test_H_from_messages c n : ∀ p msgs,
  test_H_from c p n = Some (SUCCESS, msgs) → msgs = [].
Proof.
  induction n as [|n IH]; intros p msgs; cbn [test_H_from].
  - intros [= <-]. reflexivity.
  - destruct (test_point c p) as [[[] m]|]; [apply IH| |]; discriminate.
Qed.

(** The identity matrix scaled by any [s] from 1 to [2^40] reproduces
    every set of four correspondences whose screen point equals the device
    point, for device coordinates from 0 to [2^19]: [test_H] succeeds. *)
Theorem test_H_identity (c : Calibrator) (s n : Z) (t0 t1 t2 t3 : Tuple) :
  0 < s <= 2 ^ 40 →
  Forall (λ t, 0 <= dev_X t <= 2 ^ 19 ∧ 0 <= dev_Y t <= 2 ^ 19
               ∧ scr_x t = dev_X t ∧ scr_y t = dev_Y t) [t0; t1; t2; t3] →
  test_H (with_tuples (with_H c [s; 0; 0; 0; s; 0; 0; 0; s])
            (mkTuples n [t0; t1; t2; t3]))
  = Some (SUCCESS, []).
Proof.
  intros Hs Hpts.
  set (c' := with_tuples (with_H c [s; 0; 0; 0; s; 0; 0; 0; s])
               (mkTuples n [t0; t1; t2; t3])).
  assert (Hpass : ∀ t, (0 <= dev_X t <= 2 ^ 19 ∧ 0 <= dev_Y t <= 2 ^ 19
                        ∧ scr_x t = dev_X t ∧ scr_y t = dev_Y t) →
                       reproduces c' t).
  { intros t (HX & HY & Hx & Hy).
    change (2 ^ 19) with 524288 in *. change (2 ^ 40) with 1099511627776 in *.
    assert (Hsx : 0 <= s * dev_X t <= 1099511627776 * 524288) by nia.
    assert (Hsy : 0 <= s * dev_Y t <= 1099511627776 * 524288) by nia.
    assert (Hfit : ∀ a, (a = 0 ∨ a = 3 ∨ a = 6)%nat → row_fits c' a t).
    { intros a [-> | [-> | ->]]; unfold row_fits, H_at;
        cbn [c' with_tuples with_H H nth Nat.add];
        change (2 ^ 60) with 1152921504606846976;
        rewrite ?Z.abs_0, ?Z.mul_0_l, ?Z.add_0_r, ?Z.add_0_l;
        rewrite ?(Z.abs_eq s), ?(Z.abs_eq (dev_X t)), ?(Z.abs_eq (dev_Y t)) by lia;
        lia. }
    assert (Hd : row_value c' 6 t = s).
    { unfold row_value, H_at. cbn [c' with_tuples with_H H nth Nat.add]. lia. }
    assert (H0 : row_value c' 0 t = s * dev_X t).
    { unfold row_value, H_at. cbn [c' with_tuples with_H H nth Nat.add]. lia. }
    assert (H3 : row_value c' 3 t = s * dev_Y t).
    { unfold row_value, H_at. cbn [c' with_tuples with_H H nth Nat.add]. lia. }
    assert (Hquot : ∀ v, 0 <= v → (2 * (s * v) + s) / (2 * s) = v).
    { intros v Hv. symmetry. apply (Z.div_unique _ _ v s); lia. }
    unfold reproduces. split; [|split].
    - rewrite (replay_div_in_range c' t) by (apply Hfit; auto). lia.
    - rewrite (replay_coord_in_range c' t 0) by (try apply Hfit; auto; lia).
      rewrite H0, Hd, Hquot by lia.
      rewrite to_int_id by (unfold is_int, INT_MIN, INT_MAX; lia).
      congruence.
    - rewrite (replay_coord_in_range c' t 3) by (try apply Hfit; auto; lia).
      rewrite H3, Hd, Hquot by lia.
      rewrite to_int_id by (unfold is_int, INT_MIN, INT_MAX; lia).
      congruence. }
  assert (Hall : ∀ i, (i < 4)%nat →
            ∃ t, tuple (tuples c') !! (0 + i)%nat = Some t ∧ reproduces c' t).
  { intros i Hi. cbn [c' with_tuples tuples tuple Nat.add].
    destruct (lookup_lt_is_Some_2 [t0; t1; t2; t3] i) as [t Ht]; [exact Hi|].
    exists t. split; [exact Ht|]. apply Hpass.
    rewrite Forall_lookup in Hpts. exact (Hpts i t Ht). }
  apply test_H_from_success in Hall. unfold test_H.
  destruct (test_H_from c' 0 4) as [[r msgs]|] eqn:E; [|discriminate].
  cbn in Hall. injection Hall as ->.
  assert (Hmsgs : msgs = []); [|rewrite Hmsgs; reflexivity].
  exact (test_H_from_messages c' 4 0 msgs E).
Qed.

(** The four clicks of [identity_clicks] under the identity at precision
    12. *)
Lemma test_H_identity_witness :
  test_H (with_tuples (with_H (session identity_clicks identity_H)
                         [10 ^ 12; 0; 0; 0; 10 ^ 12; 0; 0; 0; 10 ^ 12])
            (mkTuples 4 [mkTuple 128 96 128 96; mkTuple 128 671 128 671;
                         mkTuple 895 96 895 96; mkTuple 895 671 895 671]))
  = Some (SUCCESS, []).
Proof.
  apply (test_H_identity (session identity_clicks identity_H) (10 ^ 12) 4).
  - vm_compute. split; [reflexivity|discriminate].
  - repeat (apply Forall_cons_2;
            [vm_compute; repeat split; discriminate|]).
    apply Forall_nil_2.
Defined.

(** ** The codec: the error of the quantization *)

(** In exact arithmetic the quantized coefficient is within one half of
    the scaled value [v * 10^P], for scaled values up to [2^62] in absolute
    value. *)
Theorem quantize_error (v : Q) (P : Z) :
  (- inject_Z (2 ^ 62) <= v * pow10 P <= inject_Z (2 ^ 62))%Q →
  (inject_Z (quantize exact v P) - (1 # 2) <= v * pow10 P
   <= inject_Z (quantize exact v P) + (1 # 2))%Q.
Proof.
  intros [Hlo Hhi]. pose proof (pow10_nonneg P) as Hpow.
  change (inject_Z (2 ^ 62)) with (4611686018427387904 # 1)%Q in Hlo, Hhi.
  unfold quantize, exact.
  destruct (Qle_bool 0 v) eqn:Ev.
  - apply Qle_bool_iff in Ev.
    assert (Hy : (0 <= v * pow10 P)%Q) by (apply Qmult_le_0_compat; assumption).
    generalize dependent (v * pow10 P)%Q. intros z Hlo Hhi Hy.
    clear Hpow Ev v P.
    assert (Hy0 : (0 <= z + (1 # 2))%Q) by lra.
    rewrite long_long_of_float_in_range; rewrite (Qtruncate_floor _ Hy0).
    + pose proof (Qfloor_le (z + (1 # 2))) as H1.
      pose proof (Qlt_floor (z + (1 # 2))) as H2.
      rewrite inject_Z_plus in H2. change (inject_Z 1) with 1%Q in H2.
      revert H1 H2. generalize (inject_Z (Qfloor (z + (1 # 2)))).
      intros q H1 H2. split; lra.
    + assert (H1 : (Qfloor 0 <= Qfloor (z + (1 # 2)))%Z)
        by (apply Qfloor_resp_le; exact Hy0).
      assert (H2 : (Qfloor (z + (1 # 2))
                    <= Qfloor (inject_Z 4611686018427387905))%Z).
      { apply Qfloor_resp_le.
        change (inject_Z 4611686018427387905)
          with (4611686018427387905 # 1)%Q. lra. }
      rewrite Qfloor_Z in H2. change (Qfloor 0) with 0%Z in H1.
      unfold is_long_long, LLONG_MIN, LLONG_MAX.
      change (2 ^ 63)%Z with 9223372036854775808%Z. lia.
  - assert (Hv : (v < 0)%Q).
    { apply Qnot_le_lt. intros Hle. apply Qle_bool_iff in Hle. congruence. }
    assert (Hy : (v * pow10 P <= 0)%Q).
    { rewrite <- (Qmult_0_l (pow10 P)).
      apply Qmult_le_compat_r; [apply Qlt_le_weak; exact Hv|exact Hpow]. }
    generalize dependent (v * pow10 P)%Q. intros z Hlo Hhi Hy.
    clear Hpow Ev Hv v P.
    assert (Hy0 : (z - (1 # 2) <= 0)%Q) by lra.
    rewrite long_long_of_float_in_range; rewrite (Qtruncate_ceiling _ Hy0).
    + pose proof (Qle_ceiling (z - (1 # 2))) as H1.
      pose proof (Qceiling_lt (z - (1 # 2))) as H2.
      unfold Z.sub in H2. rewrite inject_Z_plus in H2.
      change (inject_Z (- (1))) with (- 1 # 1)%Q in H2.
      revert H1 H2. generalize (inject_Z (Qceiling (z - (1 # 2)))).
      intros q H1 H2. split; lra.
    + assert (H1 : (Qceiling (z - (1 # 2)) <= Qceiling 0)%Z)
        by (apply Qceiling_resp_le; exact Hy0).
      assert (H2 : (Qceiling (inject_Z (- 4611686018427387905))
                    <= Qceiling (z - (1 # 2)))%Z).
      { apply Qceiling_resp_le.
        change (inject_Z (- 4611686018427387905))
          with (- 4611686018427387905 # 1)%Q. lra. }
      rewrite Qceiling_Z in H2. change (Qceiling 0) with 0%Z in H1.
      unfold is_long_long, LLONG_MIN, LLONG_MAX.
      change (2 ^ 63)%Z with 9223372036854775808%Z. lia.
Qed.

(** [0.8] at precision 12 and [-1/3] at precision 3. *)
Lemma quantize_error_witness :
  quantize exact (4 # 5) 12 = 800000000000 ∧ quantize exact (- 1 # 3) 3 = - 333
  ∧ (inject_Z (quantize exact (- 1 # 3) 3) - (1 # 2) <= (- 1 # 3) * pow10 3
     <= inject_Z (quantize exact (- 1 # 3) 3) + (1 # 2))%Q.
Proof.
  split; [reflexivity|]. split; [reflexivity|].
  apply (quantize_error (- 1 # 3) 3).
  vm_compute. split; discriminate.
Defined.

(** ** The solver step and the end of the interactive part *)

Section FinishFacts.

Variable long_double : Q → Q.
Variable LU_factors : Type.
Variable decomp : list (list Z) → option LU_factors.
Variable solve : LU_factors → list Z → option (list Q).

(** [find_H] hands the solver the sixteen rows built from the first four
    tuples.  When both entry points return zero it overwrites all nine
    entries of [H], the first eight with the quantized solution and the
    ninth with the scale, whatever [H] held before; when one of them fails
    it returns [FAILURE] and the object is the one it was given. *)
Theorem find_H_result (c c' : Calibrator) (r : bool) (msgs : list string) :
  length (H c) = 9%nat →
  find_H long_double LU_factors decomp solve c = (r, c', msgs) →
  let A := concat (map A_rows (four_tuples c)) in
  let b := concat (map b_rows (four_tuples c)) in
  (r = SUCCESS →
   ∃ LU h, decomp A = Some LU ∧ solve LU b = Some h
           ∧ H c' = map (λ i, quantize long_double (nth i h 0%Q) (precision c))
                      (seq 0 8)
                    ++ [long_long_of_float (pow10 (precision c))]
           ∧ c' = with_H c (H c') ∧ msgs = [])
  ∧ (r = FAILURE →
     c' = c
     ∧ (decomp A = None ∨ ∃ LU, decomp A = Some LU ∧ solve LU b = None)).
Proof.
  intros Hlen Hfind A b. unfold find_H in Hfind. fold A b in Hfind.
  destruct (decomp A) as [LU|] eqn:Ed.
  - destruct (solve LU b) as [h|] eqn:Es.
    + injection Hfind as <- <- <-. split; [|discriminate]. intros _.
      exists LU, h. split; [reflexivity|]. split; [exact Es|].
      split; [|split; reflexivity].
      unfold with_H. cbn [H].
      destruct (H c) as [|h0 [|h1 [|h2 [|h3 [|h4 [|h5 [|h6 [|h7 [|h8 [|h9 l]]]]]]]]]];
        try discriminate. reflexivity.
    + injection Hfind as <- <- <-. split; [discriminate|]. intros _.
      split; [reflexivity|]. right. exists LU. split; [reflexivity|exact Es].
  - injection Hfind as <- <- <-. split; [discriminate|]. intros _.
    split; [reflexivity|]. left. reflexivity.
Qed.

Lemma find_H_keeps (c c' : Calibrator) (r : bool) (msgs : list string) :
  find_H long_double LU_factors decomp solve c = (r, c', msgs) →
  c' = with_H c (H c').
Proof.
  unfold find_H. destruct (decomp _) as [LU|].
  - destruct (solve LU _) as [h|]; intros [= <- <- <-];
      [reflexivity|destruct c; reflexivity].
  - intros [= <- <- <-]. destruct c; reflexivity.
Qed.

Lemma test_H_with_H c h : tuples (with_H c h) = tuples c.
Proof. reflexivity. Qed.

(** What [set_ebeam_calibration] and [sync_evdev_calibration] leave. *)
Lemma write_fields_xrequests c entries : ∀ n w,
  xrequests (snd (write_fields c entries n w)) = xrequests w.
Proof.
  induction entries as [|e entries IH]; intros n w; [reflexivity|].
  cbn [write_fields]. destruct (ebeam_value c e); [|apply IH].
  unfold fopen_w. case_bool_decide; [reflexivity|]. rewrite IH. reflexivity.
Qed.

Lemma set_ebeam_calibration_xrequests c w :
  xrequests (snd (set_ebeam_calibration c w)) = xrequests w.
Proof.
  unfold set_ebeam_calibration.
  destruct (dirs w !! device_dir c) as [entries|]; [|reflexivity].
  pose proof (write_fields_xrequests c entries 0 w) as Hx.
  destruct (write_fields c entries 0 w) as [[n|] w1]; cbn [snd] in Hx;
    [|exact Hx].
  destruct (negb (n =? 13)); [exact Hx|].
  unfold fopen_w. case_bool_decide; exact Hx.
Qed.

Lemma set_ebeam_calibration_enabled c w w' :
  set_ebeam_calibration c w = (true, w') →
  files w' !! (device_dir c +:+ "calibrated") = Some "1".
Proof.
  unfold set_ebeam_calibration.
  destruct (dirs w !! device_dir c) as [entries|]; [|discriminate].
  destruct (write_fields c entries 0 w) as [[n|] w1]; [|discriminate].
  destruct (negb (n =? 13)); [discriminate|].
  destruct (fopen_w _ w1) as [w2|] eqn:Eopen; [|discriminate].
  intros [= <-]. apply fopen_w_files in Eopen as [_ Hfiles].
  rewrite (fprintf_files _ _ _ EmptyString);
    rewrite ?Hfiles; apply lookup_insert_eq.
Qed.

Lemma sync_evdev_calibration_files c w :
  files (snd (sync_evdev_calibration c w)) = files w.
Proof.
  unfold sync_evdev_calibration.
  destruct (negb (XInternAtom axis_calibration w)); [reflexivity|].
  destruct (zoned c); [|reflexivity].
  destruct (negb (XInternAtom "FLOAT" _)); [reflexivity|].
  destruct (negb (XInternAtom transformation_matrix _)); reflexivity.
Qed.

Lemma sync_evdev_calibration_axis c w w' :
  sync_evdev_calibration c w = (true, w') →
  ∃ more,
    xrequests w'
    = xrequests w
      ++ mkXRequest (device_id c) axis_calibration "INTEGER"
           (XIntegers [to_uint32 (min_x c); to_uint32 (max_x c);
                       to_uint32 (min_y c); to_uint32 (max_y c)]) :: more.
Proof.
  unfold sync_evdev_calibration.
  destruct (negb (XInternAtom axis_calibration w)); [discriminate|].
  destruct (zoned c).
  - destruct (negb (XInternAtom "FLOAT" _)); [discriminate|].
    destruct (negb (XInternAtom transformation_matrix _)); [discriminate|].
    intros [= <-]. eexists. cbn [XIChangeProperty xrequests].
    rewrite <- app_assoc. reflexivity.
  - intros [= <-]. exists []. reflexivity.
Qed.

(** A successful [finish] has gone through every step: the count was four,
    the tuples are untouched, the matrix left in the session passes the
    replay of [test_H], the driver's [calibrated] file holds ["1"], and the
    axis calibration of the zone was sent to the X server. *)
Theorem finish_success (c c' : Calibrator) (w w' : World) :
  finish long_double LU_factors decomp solve c w = Some (SUCCESS, c', w') →
  num (tuples c) = 4
  ∧ c' = with_H c (H c')
  ∧ fst <$> test_H c' = Some SUCCESS
  ∧ files w' !! (device_dir c +:+ "calibrated") = Some "1"
  ∧ ∃ more,
      xrequests w'
      = xrequests w
        ++ mkXRequest (device_id c) axis_calibration "INTEGER"
             (XIntegers [to_uint32 (min_x c); to_uint32 (max_x c);
                         to_uint32 (min_y c); to_uint32 (max_y c)]) :: more.
Proof.
  unfold finish. destruct (num (tuples c) =? Z.of_nat NUM_POINTS) eqn:Enum;
    [|discriminate].
  apply Z.eqb_eq in Enum. cbn [negb].
  destruct (find_H _ _ _ _ c) as [[[] c1] msgs] eqn:Efind; [|discriminate].
  apply find_H_keeps in Efind.
  destruct (test_H c1) as [[[] lines]|] eqn:Etest; try discriminate.
  destruct (set_ebeam_calibration c1 _) as [[] w3] eqn:Eset; [|discriminate].
  destruct (sync_evdev_calibration c1 w3) as [[] w4] eqn:Esync; [|discriminate].
  intros [= <- <-].
  split; [exact Enum|]. split; [exact Efind|].
  split; [rewrite Etest; reflexivity|].
  assert (Hdir : device_dir c1 = device_dir c) by (rewrite Efind; reflexivity).
  split.
  - pose proof (sync_evdev_calibration_files c1 w3) as Hf.
    rewrite Esync in Hf. cbn [snd] in Hf. rewrite Hf, <- Hdir.
    exact (set_ebeam_calibration_enabled _ _ _ Eset).
  - destruct (sync_evdev_calibration_axis _ _ _ Esync) as [more Hx].
    pose proof (set_ebeam_calibration_xrequests c1 (eprints lines (eprints msgs w)))
      as Hs.
    rewrite Eset in Hs. cbn [snd] in Hs.
    exists more. rewrite Hx, Hs, Efind. reflexivity.
Qed.

(** Nothing reaches the driver or the X server unless the matrix has
    passed the replay: after any [finish], either the files and the
    requests are the ones before, or the count was four and the matrix left
    in the session passes [test_H]. *)
Theorem finish_transfers_only_replayed (c c' : Calibrator) (w w' : World)
    (r : bool) :
  finish long_double LU_factors decomp solve c w = Some (r, c', w') →
  (files w' = files w ∧ xrequests w' = xrequests w)
  ∨ (num (tuples c) = 4 ∧ fst <$> test_H c' = Some SUCCESS).
Proof.
  unfold finish. destruct (num (tuples c) =? Z.of_nat NUM_POINTS) eqn:Enum.
  2:{ intros [= <- <- <-]. left. split; reflexivity. }
  apply Z.eqb_eq in Enum. cbn [negb].
  destruct (find_H _ _ _ _ c) as [[[] c1] msgs].
  2:{ intros [= <- <- <-]. left. split; reflexivity. }
  destruct (test_H c1) as [[[] lines]|] eqn:Etest; [| |discriminate].
  2:{ intros [= <- <- <-]. left. split; reflexivity. }
  intros Hrest. right. split; [exact Enum|].
  assert (c' = c1); [|subst c'; rewrite Etest; reflexivity].
  destruct (set_ebeam_calibration c1 _) as [[] w3].
  - destruct (sync_evdev_calibration c1 w3) as [[] w4];
      injection Hrest as _ <- _; reflexivity.
  - injection Hrest as _ <- _. reflexivity.
Qed.

(** A failure of the solver is surfaced: with four points stored and the
    decomposition or the solution refused, [finish] returns [FAILURE], the
    session keeps the matrix it had, and the environment only gains two
    lines of diagnostics. *)
Theorem finish_solver_failure (c : Calibrator) (w : World) :
  num (tuples c) = 4 →
  let A := concat (map A_rows (four_tuples c)) in
  let b := concat (map b_rows (four_tuples c)) in
  (decomp A = None ∨ ∃ LU, decomp A = Some LU ∧ solve LU b = None) →
  ∃ line,
    finish long_double LU_factors decomp solve c w
    = Some (FAILURE, c,
            eprint "ERROR: unable to compute H matrix." (eprint line w)).
Proof.
  intros Hnum A b Hfail. unfold finish, find_H. fold A b.
  rewrite Hnum. cbn [negb Z.eqb NUM_POINTS Z.of_nat Pos.of_succ_nat Pos.succ
                     Pos.eqb].
  destruct Hfail as [->|(LU & -> & ->)]; eexists; reflexivity.
Qed.

End FinishFacts.

(** The solver stub on [fresh_session]: the identity at precision 12. *)
Lemma find_H_result_witness :
  ∃ h, identity_solve tt (concat (map b_rows (four_tuples fresh_session)))
       = Some h
       ∧ identity_H
         = map (λ i, quantize exact (nth i h 0%Q) 12) (seq 0 8)
           ++ [long_long_of_float (pow10 12)].
Proof.
  destruct (find_H_result exact unit identity_decomp identity_solve
              fresh_session (with_H fresh_session identity_H) SUCCESS []
              eq_refl eq_refl) as [Hsuccess _].
  destruct (Hsuccess eq_refl) as (LU & h & _ & Hsolve & HH & _).
  exists h. split; [destruct LU; exact Hsolve|exact HH].
Defined.

(** [finish] on [fresh_session] with the driver of [driver_world]. *)
Lemma finish_success_witness :
  ∃ c' w',
    finish exact unit identity_decomp identity_solve fresh_session driver_world
    = Some (SUCCESS, c', w')
    ∧ fst <$> test_H c' = Some SUCCESS
    ∧ files w' !! "/sys/ebeam/calibrated" = Some "1".
Proof.
  assert (E : ∃ c' w',
            finish exact unit identity_decomp identity_solve fresh_session
              driver_world = Some (SUCCESS, c', w'))
    by (eexists; eexists; vm_compute; reflexivity).
  destruct E as (c' & w' & E). exists c', w'. split; [exact E|].
  destruct (finish_success exact unit identity_decomp identity_solve
              fresh_session c' driver_world w' E) as (_ & _ & Ht & Hf & _).
  split; [exact Ht|exact Hf].
Defined.

(** The two sides of the alternative: without a driver directory nothing
    is written although the matrix passes the replay; with the driver of
    [driver_world] the matrix transferred passes it. *)
Lemma finish_transfers_only_replayed_witness :
  ∃ r c' w',
    finish exact unit identity_decomp identity_solve fresh_session stale_world
    = Some (r, c', w')
    ∧ ((files w' = files stale_world ∧ xrequests w' = xrequests stale_world)
       ∨ (num (tuples fresh_session) = 4
          ∧ fst <$> test_H c' = Some SUCCESS)).
Proof.
  assert (E : ∃ r c' w',
            finish exact unit identity_decomp identity_solve fresh_session
              stale_world = Some (r, c', w'))
    by (eexists; eexists; eexists; vm_compute; reflexivity).
  destruct E as (r & c' & w' & E). exists r, c', w'. split; [exact E|].
  exact (finish_transfers_only_replayed exact unit identity_decomp
           identity_solve fresh_session c' stale_world w' r E).
Defined.

(** A decomposition that fails on [fresh_session]. *)
Lemma finish_solver_failure_witness :
  ∃ line,
    finish exact unit refusing_decomp identity_solve fresh_session driver_world
    = Some (FAILURE, fresh_session,
            eprint "ERROR: unable to compute H matrix."
              (eprint line driver_world)).
Proof.
  apply (finish_solver_failure exact unit refusing_decomp identity_solve
           fresh_session driver_world).
  - reflexivity.
  - left. reflexivity.
Defined.

(** ** The state file: short, blank and malformed files *)

Lemma scan_H_from_eof n : ∀ i c, scan_H_from i n EmptyString c = (true, c).
Proof. induction n as [|n IH]; intros i c; [reflexivity|]. apply IH. Qed.

Lemma scan_H_from_prefix hs : ∀ i c k,
  (i + length hs ≤ length (H c))%nat → Forall is_long_long hs →
  scan_H_from i (length hs + k)
    (lines_before EmptyString (map print_integer hs)) c
  = (true, with_H c (take i (H c) ++ hs ++ drop (i + length hs) (H c))).
Proof.
  induction hs as [|v hs IH]; intros i c k Hlen Hhs.
  - cbn [length Nat.add map lines_before foldr]. rewrite scan_H_from_eof.
    rewrite Nat.add_0_r, app_nil_l, take_drop, with_H_same. reflexivity.
  - apply Forall_cons in Hhs as [Hv Hhs]. cbn [length] in Hlen.
    cbn [map lines_before foldr scan_H_from length Nat.add].
    rewrite scan_lld_print by (exact Hv || apply ends_number_nl).
    rewrite skip_space_nl.
    change (foldr (λ t acc, t +:+ nl +:+ acc) EmptyString
              (map print_integer hs))
      with (lines_before EmptyString (map print_integer hs)).
    rewrite skip_space_lines by reflexivity.
    rewrite IH; [| unfold set_H, with_H; cbn [H]; rewrite length_insert; lia
                 | exact Hhs].
    unfold set_H, with_H. cbn [H device_id device_dir precision
      threshold_doubleclick tuples zoned min_x min_y max_x max_y
      screen_width screen_height ifile ofile].
    rewrite (take_S_r _ i v) by (apply list_lookup_insert_eq; lia).
    rewrite take_insert_ge by lia.
    rewrite drop_insert_lt by lia.
    rewrite <- app_assoc.
    replace (S i + length hs)%nat with (i + S (length hs))%nat by lia.
    reflexivity.
Qed.

(** A state file may stop short.  With the tag, the four bounds and only
    the first [k] coefficients, the restoring branch reports no error: the
    bounds and the first [k] entries of [H] are taken from the file, the
    other entries keep the values the object had, and the whole is
    transferred to the driver and the X server. *)
Theorem restore_state_short_file (VERSION path tag : string) (c2 : Calibrator)
    (w2 : World) (a b c d : Z) (hs : list Z) :
  is_word tag = true →
  is_int a → is_int b → is_int c → is_int d →
  Forall is_long_long hs → (length hs ≤ 9)%nat → length (H c2) = 9%nat →
  files w2 !! path
  = Some (lines_before EmptyString
            (tag :: map print_integer ([a; b; c; d] ++ hs))) →
  ∃ r c3 w3,
    restore_state VERSION path c2 w2 = Some (r, c3, w3)
    ∧ min_x c3 = a ∧ max_x c3 = b ∧ min_y c3 = c ∧ max_y c3 = d
    ∧ H c3 = hs ++ drop (length hs) (H c2)
    ∧ (r = SUCCESS
       ↔ ∃ wa, set_ebeam_calibration c3 (version_warning VERSION tag w2)
               = (true, wa)
               ∧ fst (sync_evdev_calibration c3 wa) = true).
Proof.
  intros Hword Ha Hb Hc Hd Hhs Hk Hlen Hfile.
  unfold restore_state, fopen_r. rewrite Hfile.
  cbn [lines_before foldr].
  change (foldr (λ t acc, t +:+ nl +:+ acc) EmptyString ?l)
    with (lines_before EmptyString l).
  rewrite (scan_s_word tag _ Hword).
  assert (Hshort : (9 <? String.length tag)%nat = false).
  { unfold is_word in Hword. destruct tag; [discriminate|].
    apply andb_true_iff in Hword as [_ Hl]. apply Nat.leb_le in Hl.
    apply Nat.ltb_ge. exact Hl. }
  rewrite Hshort, skip_space_nl.
  rewrite map_app, lines_before_app.
  rewrite skip_space_lines by (apply skip_space_lines; reflexivity).
  rewrite (fscanf_ints_lines [with_min_x; with_max_x; with_min_y; with_max_y]
             [a; b; c; d]);
    [|reflexivity
     |repeat (apply Forall_cons_2; [assumption|]); apply Forall_nil_2
     |apply skip_space_lines; reflexivity].
  cbn [length Z.of_nat Z.add Pos.of_succ_nat Pos.succ negb Z.eqb Pos.eqb
       zip zip_with foldl fst snd].
  set (cz := with_max_y (with_min_y (with_max_x (with_min_x c2 a) b) c) d).
  assert (HscanH :
    scan_H_from 0 9 (lines_before EmptyString (map print_integer hs)) cz
    = (true, with_H cz (hs ++ drop (length hs) (H c2)))).
  { pose proof (scan_H_from_prefix hs 0 cz (9 - length hs)) as Hp.
    replace (length hs + (9 - length hs))%nat with 9%nat in Hp by lia.
    rewrite Hp; [reflexivity| |exact Hhs].
    cbn [cz with_max_y with_min_y with_max_x with_min_x H]. lia. }
  rewrite HscanH.
  set (c3 := with_zoned (with_H cz (hs ++ drop (length hs) (H c2))) _).
  change (if String.eqb tag VERSION then w2 else _)
    with (version_warning VERSION tag w2).
  set (wv := version_warning VERSION tag w2).
  destruct (set_ebeam_calibration c3 wv) as [[] wa] eqn:Eset.
  - destruct (sync_evdev_calibration c3 wa) as [[] wb] eqn:Esync.
    + exists SUCCESS, c3, wb. repeat (split; [reflexivity|]).
      split; [|reflexivity]. intros _. exists wa. split; [exact Eset|].
      rewrite Esync. reflexivity.
    + eexists FAILURE, c3, _. repeat (split; [reflexivity|]).
      split; [discriminate|]. intros (wa' & Hwa & Hok).
      rewrite Eset in Hwa. injection Hwa as <-.
      rewrite Esync in Hok. discriminate.
  - eexists FAILURE, c3, _. repeat (split; [reflexivity|]).
    split; [discriminate|]. intros (wa' & Hwa & _).
    rewrite Eset in Hwa. discriminate.
Qed.

(** A missing file, an empty file and a file of white space are refused
    before anything is assigned: [FAILURE], one line of diagnostics, the
    object and the rest of the environment as they were. *)
Theorem restore_state_no_text (VERSION path : string) (c : Calibrator)
    (w : World) :
  files w !! path = None
  ∨ (∃ text, files w !! path = Some text ∧ skip_space text = EmptyString) →
  ∃ line, restore_state VERSION path c w = Some (FAILURE, c, eprint line w).
Proof.
  unfold restore_state, fopen_r, scan_s.
  intros [->|(text & -> & ->)]; eexists; reflexivity.
Qed.

(** A file that has a tag and no number after it (the input ends, or the
    next token is not a decimal integer) is refused: [FAILURE], and the
    object keeps its bounds and its matrix. *)
Theorem restore_state_no_bounds (VERSION path tag rest : string)
    (c : Calibrator) (w : World) :
  is_word tag = true →
  files w !! path = Some (tag +:+ nl +:+ rest) →
  (∀ v s, scan_d (skip_space rest) ≠ Scanned v s) →
  restore_state VERSION path c w
  = Some (FAILURE, c,
          eprint ("ERROR: bad state file (min/max) " +:+ path)
            (version_warning VERSION tag w)).
Proof.
  intros Hword Hfile Hscan. unfold restore_state, fopen_r. rewrite Hfile.
  rewrite (scan_s_word tag _ Hword).
  assert (Hshort : (9 <? String.length tag)%nat = false).
  { unfold is_word in Hword. destruct tag; [discriminate|].
    apply andb_true_iff in Hword as [_ Hl]. apply Nat.leb_le in Hl.
    apply Nat.ltb_ge. exact Hl. }
  rewrite Hshort, skip_space_nl. cbn [fscanf_ints].
  destruct (scan_d (skip_space rest)) as [v s| |] eqn:E.
  - exfalso. exact (Hscan v s eq_refl).
  - reflexivity.
  - reflexivity.
Qed.

(** The file of [short_world] restored into a session that holds the
    identity matrix: the matrix stays. *)
Lemma restore_state_short_file_witness :
  ∃ r c3 w3,
    restore_state version_0_9 "/tmp/state" (with_H restoring identity_H)
      short_world = Some (r, c3, w3)
    ∧ max_x c3 = 1023 ∧ max_y c3 = 767 ∧ H c3 = identity_H.
Proof.
  destruct (restore_state_short_file version_0_9 "/tmp/state" "0.9"
              (with_H restoring identity_H) short_world 0 1023 0 767 [])
    as (r & c3 & w3 & Hr & _ & Hb & _ & Hd & HH & _).
  - reflexivity.
  - vm_compute. split; discriminate.
  - vm_compute. split; discriminate.
  - vm_compute. split; discriminate.
  - vm_compute. split; discriminate.
  - apply Forall_nil_2.
  - apply Nat.le_0_l.
  - reflexivity.
  - vm_compute. reflexivity.
  - exists r, c3, w3. split; [exact Hr|]. split; [exact Hb|].
    split; [exact Hd|exact HH].
Defined.

(** No file at [/tmp/none] in [stale_world]. *)
Lemma restore_state_no_text_witness :
  ∃ line,
    restore_state version_0_9 "/tmp/none" restoring stale_world
    = Some (FAILURE, restoring, eprint line stale_world).
Proof.
  apply (restore_state_no_text version_0_9 "/tmp/none" restoring stale_world).
  left. vm_compute. reflexivity.
Defined.

(** The file of [garbled_world]: the tag, then the word [full]. *)
Lemma restore_state_no_bounds_witness :
  restore_state version_0_9 "/tmp/state" restoring garbled_world
  = Some (FAILURE, restoring,
          eprint "ERROR: bad state file (min/max) /tmp/state" garbled_world).
Proof.
  apply (restore_state_no_bounds version_0_9 "/tmp/state" "0.9" "full"
           restoring garbled_world).
  - reflexivity.
  - vm_compute. reflexivity.
  - intros v s. vm_compute. discriminate.
Defined.

(** ** The files of the driver: what is written and read back *)

Section DriverFacts.

Variable c : Calibrator.

Lemma ebeam_value_names d_name :
  is_parameter c d_name = true ↔ d_name ∈ parameter_names.
Proof.
  unfold is_parameter, ebeam_value, parameter_names. split.
  - repeat match goal with
           | |- context [String.eqb d_name ?k] =>
               destruct (String.eqb_spec d_name k) as [->|_];
               [intros _; rewrite !elem_of_cons; tauto|]
           end.
    discriminate.
  - rewrite !elem_of_cons, elem_of_nil.
    intros H0; repeat (destruct H0 as [->|H0]; [reflexivity|]).
    contradiction.
Qed.

Lemma calibrated_not_parameter : is_parameter c "calibrated" = false.
Proof. reflexivity. Qed.

(** A directory without repeated names lists at most thirteen
    parameters. *)
Lemma parameters_listed entries :
  NoDup entries →
  (length (List.filter (is_parameter c) entries) ≤ 13)%nat
  ∧ (length (List.filter (is_parameter c) entries) = 13%nat →
     ∀ name, name ∈ parameter_names → name ∈ entries).
Proof.
  intros Hnd. apply NoDup_ListNoDup in Hnd.
  assert (Hnd' : List.NoDup (List.filter (is_parameter c) entries))
    by (apply List.NoDup_filter; exact Hnd).
  assert (Hincl : incl (List.filter (is_parameter c) entries) parameter_names).
  { intros e He. apply List.filter_In in He as [_ He].
    apply list_elem_of_In, ebeam_value_names. exact He. }
  split.
  - exact (List.NoDup_incl_length Hnd' Hincl).
  - intros Hlen name Hname.
    assert (Hback : incl parameter_names (List.filter (is_parameter c) entries)).
    { apply List.NoDup_length_incl; [exact Hnd'| |exact Hincl].
      rewrite Hlen. reflexivity. }
    apply list_elem_of_In in Hname. apply Hback, List.filter_In in Hname.
    apply list_elem_of_In. tauto.
Qed.

Lemma parameter_path_inj n1 n2 :
  device_dir c +:+ n1 = device_dir c +:+ n2 → n1 = n2.
Proof. apply String.app_inj. Qed.

(** The loop over the directory: the files of the parameters it lists hold
    their values, the other files are the ones before, and the count is
    the number of parameters listed. *)
Lemma write_fields_files entries : ∀ n w,
  NoDup entries →
  0 <= n → n + Z.of_nat (length (List.filter (is_parameter c) entries)) <= 13 →
  (∀ p, (∀ name, name ∈ entries → is_parameter c name = true →
                 p ≠ device_dir c +:+ name) →
        files (snd (write_fields c entries n w)) !! p = files w !! p)
  ∧ (∀ n', fst (write_fields c entries n w) = Some n' →
       n' = n + Z.of_nat (length (List.filter (is_parameter c) entries))
       ∧ ∀ name v, name ∈ entries → ebeam_value c name = Some v →
           files (snd (write_fields c entries n w)) !! (device_dir c +:+ name)
           = Some v).
Proof.
  induction entries as [|e entries IH]; intros n w Hnd Hn Hcount.
  - split; [reflexivity|]. intros n' [= <-]. split; [cbn; lia|].
    intros name v Hin. apply elem_of_nil in Hin. contradiction.
  - apply NoDup_cons in Hnd as [Hfresh Hnd].
    cbn [write_fields List.filter] in *.
    destruct (ebeam_value c e) as [value|] eqn:Evalue.
    + assert (Hpar : is_parameter c e = true)
        by (unfold is_parameter; rewrite Evalue; reflexivity).
      rewrite Hpar in *. cbn [length] in Hcount.
      destruct (fopen_w (device_dir c +:+ e) w) as [w1|] eqn:Eopen.
      * apply fopen_w_files in Eopen as [_ Hfiles1].
        set (w2 := fprintf (device_dir c +:+ e) value w1).
        assert (Hfiles2 : files w2 = <[device_dir c +:+ e := value]> (files w)).
        { unfold w2. rewrite (fprintf_files _ _ _ EmptyString)
            by (rewrite Hfiles1; apply lookup_insert_eq).
          rewrite Hfiles1, insert_insert_eq. reflexivity. }
        rewrite to_int_id by (unfold is_int, INT_MIN, INT_MAX; lia).
        destruct (IH (n + 1) w2 Hnd ltac:(lia) ltac:(lia)) as [Hframe Hdone].
        split.
        -- intros p Hp. rewrite Hframe.
           ++ rewrite Hfiles2. apply lookup_insert_ne.
              intros Heq. apply (Hp e); [apply list_elem_of_here|exact Hpar|].
              congruence.
           ++ intros name Hin. apply Hp. apply list_elem_of_further. exact Hin.
        -- intros n' Hn'. destruct (Hdone n' Hn') as [-> Hvalues].
           split; [cbn [length]; lia|].
           intros name v Hin Hv. apply elem_of_cons in Hin as [->|Hin].
           ++ rewrite Hframe.
              ** rewrite Hfiles2, lookup_insert_eq. congruence.
              ** intros name Hin _ Heq. apply parameter_path_inj in Heq.
                 subst name. contradiction.
           ++ apply Hvalues; assumption.
      * split; [intros p _; reflexivity|]. intros n'. discriminate.
    + assert (Hpar : is_parameter c e = false)
        by (unfold is_parameter; rewrite Evalue; reflexivity).
      rewrite Hpar in *.
      destruct (IH n w Hnd Hn Hcount) as [Hframe Hdone]. split.
      * intros p Hp. apply Hframe. intros name Hin. apply Hp.
        apply list_elem_of_further. exact Hin.
      * intros n' Hn'. destruct (Hdone n' Hn') as [-> Hvalues].
        split; [reflexivity|].
        intros name v Hin Hv. apply elem_of_cons in Hin as [->|Hin];
          [congruence|]. apply Hvalues; assumption.
Qed.

End DriverFacts.

Section DriverTransfer.

Variable c : Calibrator.

(** The loop writes to the files of parameters only. *)
Lemma write_fields_frame entries : ∀ n w p,
  (∀ name, is_parameter c name = true → p ≠ device_dir c +:+ name) →
  files (snd (write_fields c entries n w)) !! p = files w !! p.
Proof.
  induction entries as [|e entries IH]; intros n w p Hp; [reflexivity|].
  cbn [write_fields]. destruct (ebeam_value c e) as [value|] eqn:Evalue;
    [|apply IH; exact Hp].
  destruct (fopen_w (device_dir c +:+ e) w) as [w1|] eqn:Eopen; [|reflexivity].
  apply fopen_w_files in Eopen as [_ Hfiles1].
  rewrite IH by exact Hp.
  rewrite (fprintf_files _ _ _ EmptyString)
    by (rewrite Hfiles1; apply lookup_insert_eq).
  rewrite Hfiles1, insert_insert_eq. apply lookup_insert_ne.
  intros Heq. apply (Hp e); [|congruence].
  unfold is_parameter. rewrite Evalue. reflexivity.
Qed.

Lemma calibrated_path_fresh name :
  is_parameter c name = true →
  device_dir c +:+ "calibrated" ≠ device_dir c +:+ name.
Proof.
  intros Hpar Heq. apply parameter_path_inj in Heq. subst name.
  rewrite calibrated_not_parameter in Hpar. discriminate.
Qed.

(** What a successful transfer leaves in the files. *)
Lemma set_ebeam_calibration_written (w w' : World) (entries : list string) :
  dirs w !! device_dir c = Some entries → NoDup entries →
  set_ebeam_calibration c w = (true, w') →
  (∀ name, name ∈ parameter_names →
           files w' !! (device_dir c +:+ name) = ebeam_value c name)
  ∧ files w' !! (device_dir c +:+ "calibrated") = Some "1"
  ∧ (∀ p, p ≠ device_dir c +:+ "calibrated" →
          (∀ name, name ∈ parameter_names → p ≠ device_dir c +:+ name) →
          files w' !! p = files w !! p).
Proof.
  intros Hdir Hnd Hset.
  pose proof (set_ebeam_calibration_enabled c w w' Hset) as Hflag.
  unfold set_ebeam_calibration in Hset. rewrite Hdir in Hset.
  destruct (parameters_listed c entries Hnd) as [Hle Hall].
  destruct (write_fields_files c entries 0 w Hnd ltac:(lia) ltac:(lia))
    as [Hframe Hdone].
  destruct (write_fields c entries 0 w) as [[n|] w1]; [|discriminate].
  cbn [fst snd] in *. destruct (Hdone n eq_refl) as [Hn Hvalues].
  destruct (n =? 13) eqn:E13; [|discriminate]. apply Z.eqb_eq in E13.
  cbn [negb] in Hset.
  destruct (fopen_w _ w1) as [w2|] eqn:Eopen; [|discriminate].
  injection Hset as <-. apply fopen_w_files in Eopen as [_ Hfiles2].
  assert (Hfiles : files (fprintf (device_dir c +:+ "calibrated") "1" w2)
                   = <[device_dir c +:+ "calibrated" := "1"]> (files w1)).
  { rewrite (fprintf_files _ _ _ EmptyString)
      by (rewrite Hfiles2; apply lookup_insert_eq).
    rewrite Hfiles2, insert_insert_eq. reflexivity. }
  split; [|split; [exact Hflag|]].
  - intros name Hname. rewrite Hfiles.
    assert (Hpar : is_parameter c name = true)
      by (apply (proj2 (ebeam_value_names c name)); exact Hname).
    rewrite lookup_insert_ne by (apply calibrated_path_fresh; exact Hpar).
    unfold is_parameter in Hpar.
    destruct (ebeam_value c name) as [v|] eqn:Ev; [|discriminate].
    apply Hvalues; [|exact Ev]. apply Hall; [lia|exact Hname].
  - intros p Hflagp Hp. rewrite Hfiles, lookup_insert_ne by congruence.
    apply Hframe. intros name _ Hpar. apply Hp.
    apply (proj1 (ebeam_value_names c name)). exact Hpar.
Qed.

(** A successful [set_ebeam_calibration], on a directory without repeated
    names, leaves in each of the thirteen files the decimal text of its
    parameter and ["1"] in [calibrated]; no other file is changed. *)
Theorem set_ebeam_calibration_files (w w' : World) (entries : list string) :
  dirs w !! device_dir c = Some entries → NoDup entries →
  set_ebeam_calibration c w = (true, w') →
  (∀ name, name ∈ parameter_names →
           files w' !! (device_dir c +:+ name) = ebeam_value c name)
  ∧ files w' !! (device_dir c +:+ "calibrated") = Some "1"
  ∧ (∀ p, p ≠ device_dir c +:+ "calibrated" →
          (∀ name, name ∈ parameter_names → p ≠ device_dir c +:+ name) →
          files w' !! p = files w !! p).
Proof. exact (set_ebeam_calibration_written w w' entries). Qed.

(** Whatever makes [set_ebeam_calibration] fail, the [calibrated] file of
    the driver is left as it was: the calibration is enabled only after
    thirteen parameters are written. *)
Theorem set_ebeam_calibration_failure (w w' : World) :
  set_ebeam_calibration c w = (false, w') →
  files w' !! (device_dir c +:+ "calibrated")
  = files w !! (device_dir c +:+ "calibrated").
Proof.
  unfold set_ebeam_calibration.
  destruct (dirs w !! device_dir c) as [entries|];
    [|intros [= <-]; reflexivity].
  pose proof (write_fields_frame entries 0 w
                (device_dir c +:+ "calibrated") calibrated_path_fresh)
    as Hframe.
  destruct (write_fields c entries 0 w) as [[n|] w1]; cbn [snd] in Hframe.
  - destruct (negb (n =? 13)); [intros [= <-]; exact Hframe|].
    destruct (fopen_w _ w1); [discriminate|]. intros [= <-]. exact Hframe.
  - intros [= <-]. exact Hframe.
Qed.

(** A directory that lacks one of the thirteen names makes
    [set_ebeam_calibration] fail. *)
Theorem set_ebeam_calibration_incomplete (w : World) (entries : list string)
    (name : string) :
  dirs w !! device_dir c = Some entries → NoDup entries →
  name ∈ parameter_names → name ∉ entries →
  fst (set_ebeam_calibration c w) = FAILURE.
Proof.
  intros Hdir Hnd Hname Hmissing.
  unfold set_ebeam_calibration. rewrite Hdir.
  destruct (parameters_listed c entries Hnd) as [Hle Hall].
  destruct (write_fields_files c entries 0 w Hnd ltac:(lia) ltac:(lia))
    as [_ Hdone].
  destruct (write_fields c entries 0 w) as [[n|] w1]; [|reflexivity].
  destruct (Hdone n eq_refl) as [Hn _].
  destruct (n =? 13) eqn:E13; [|reflexivity]. apply Z.eqb_eq in E13.
  exfalso. apply Hmissing, Hall; [lia|exact Hname].
Qed.

End DriverTransfer.

Lemma set_ebeam_calibration_files_witness :
  let w' := snd (set_ebeam_calibration calibrated_session driver_world) in
  (∀ name, name ∈ parameter_names →
           files w' !! ("/sys/ebeam/" +:+ name)
           = ebeam_value calibrated_session name)
  ∧ files w' !! "/sys/ebeam/calibrated" = Some "1"
  ∧ (∀ p, p ≠ "/sys/ebeam/calibrated" →
          (∀ name, name ∈ parameter_names → p ≠ "/sys/ebeam/" +:+ name) →
          files w' !! p = files driver_world !! p).
Proof.
  apply (set_ebeam_calibration_files calibrated_session driver_world
           (snd (set_ebeam_calibration calibrated_session driver_world))
           driver_names).
  - reflexivity.
  - apply (bool_decide_unpack _). vm_compute. exact I.
  - vm_compute. reflexivity.
Defined.

Lemma set_ebeam_calibration_failure_witness :
  files (snd (set_ebeam_calibration calibrated_session partial_driver_world))
    !! "/sys/ebeam/calibrated"
  = files partial_driver_world !! "/sys/ebeam/calibrated".
Proof.
  apply (set_ebeam_calibration_failure calibrated_session partial_driver_world
           (snd (set_ebeam_calibration calibrated_session
                   partial_driver_world))).
  vm_compute. reflexivity.
Defined.

Lemma set_ebeam_calibration_incomplete_witness :
  fst (set_ebeam_calibration calibrated_session partial_driver_world) = FAILURE.
Proof.
  apply (set_ebeam_calibration_incomplete calibrated_session
           partial_driver_world
           ["calibrated"; "min_x"; "min_y"; "max_x"; "max_y";
            "h1"; "h2"; "h3"; "h4"; "h5"; "h6"; "h7"; "h8"] "h9").
  - reflexivity.
  - apply (bool_decide_unpack _). vm_compute. exact I.
  - apply (bool_decide_unpack _). vm_compute. exact I.
  - apply (bool_decide_unpack _). vm_compute. exact I.
Defined.

(** *** Reading the driver's files back *)

Lemma read_field_value name msg scan set (c2 : Calibrator) (w : World)
    (text rest : string) (v : Z) :
  files w !! (device_dir c2 +:+ name) = Some text →
  scan text = Scanned v rest →
  read_field name msg scan set c2 w = (true, set c2 v, w).
Proof.
  intros Hfile Hscan. unfold read_field, fopen_r. rewrite Hfile, Hscan.
  reflexivity.
Qed.

Lemma scan_d_printed v : is_int v → scan_d (print_integer v) = Scanned v EmptyString.
Proof.
  intros Hv. rewrite <- (append_empty_r (print_integer v)).
  apply scan_d_print; [exact Hv|reflexivity].
Qed.

Lemma scan_lld_printed v :
  is_long_long v → scan_lld (print_integer v) = Scanned v EmptyString.
Proof.
  intros Hv. rewrite <- (append_empty_r (print_integer v)).
  apply scan_lld_print; [exact Hv|reflexivity].
Qed.

(** The names of the nine files of the matrix, as the loops compute
    them. *)
Lemma h_names :
  map (λ i, "h" +:+ pretty (Z.of_nat i)) (seq 1 9)
  = ["h1"; "h2"; "h3"; "h4"; "h5"; "h6"; "h7"; "h8"; "h9"].
Proof. vm_compute. reflexivity. Qed.

Lemma h_name k :
  (k < 9)%nat →
  "h" +:+ pretty (Z.of_nat (S k))
  = nth k ["h1"; "h2"; "h3"; "h4"; "h5"; "h6"; "h7"; "h8"; "h9"] EmptyString.
Proof.
  intros Hk. do 9 (destruct k as [|k]; [vm_compute; reflexivity|]). lia.
Qed.

Lemma h_name_parameter k :
  (k < 9)%nat → "h" +:+ pretty (Z.of_nat (S k)) ∈ parameter_names.
Proof.
  intros Hk. pose proof h_names as Hnames.
  assert (Hin : "h" +:+ pretty (Z.of_nat (S k))
                ∈ map (λ i, "h" +:+ pretty (Z.of_nat i)) (seq 1 9)).
  { apply list_elem_of_fmap. exists (S k). split; [reflexivity|].
    apply elem_of_seq. lia. }
  rewrite Hnames in Hin. unfold parameter_names.
  rewrite !elem_of_cons in *. tauto.
Qed.

Lemma read_H_from_values hs : ∀ j (c2 : Calibrator) (w : World),
  length (H c2) = (j + length hs)%nat → Forall is_long_long hs →
  (∀ k v, hs !! k = Some v →
     files w !! (device_dir c2 +:+ "h" +:+ pretty (Z.of_nat (S (j + k))))
     = Some (print_integer v)) →
  read_H_from (S j) (length hs) c2 w
  = (true, with_H c2 (take j (H c2) ++ hs), w).
Proof.
  induction hs as [|v hs IH]; intros j c2 w Hlen Hhs Hfiles.
  - cbn [length read_H_from]. cbn [length] in Hlen.
    rewrite app_nil_r, take_ge by lia. rewrite with_H_same. reflexivity.
  - apply Forall_cons in Hhs as [Hv Hhs]. cbn [length] in Hlen.
    cbn [length read_H_from].
    rewrite (read_field_value _ _ _ _ c2 w (print_integer v) EmptyString v).
    + replace (S j - 1)%nat with j by lia.
      rewrite IH.
      * unfold set_H, with_H. cbn [H device_id device_dir precision
          threshold_doubleclick tuples zoned min_x min_y max_x max_y
          screen_width screen_height ifile ofile].
        rewrite (take_S_r _ j v) by (apply list_lookup_insert_eq; lia).
        rewrite take_insert_ge by lia. rewrite <- app_assoc. reflexivity.
      * unfold set_H, with_H. cbn [H]. rewrite length_insert. lia.
      * exact Hhs.
      * intros k v' Hk. replace (S j + k)%nat with (j + S k)%nat by lia.
        exact (Hfiles (S k) v' Hk).
    + specialize (Hfiles 0%nat v eq_refl). rewrite Nat.add_0_r in Hfiles.
      exact Hfiles.
    + apply scan_lld_printed. exact Hv.
Qed.

(** What [set_ebeam_calibration] writes, [get_ebeam_calibration] reads
    back: after a successful set of a valid snapshot, on a directory
    without repeated names, any object on the same driver directory gets
    the same four bounds and the same nine coefficients, and the get
    changes nothing in the environment. *)
Theorem get_after_set (c c2 : Calibrator) (w w' : World)
    (entries : list string) :
  dirs w !! device_dir c = Some entries → NoDup entries →
  set_ebeam_calibration c w = (true, w') →
  valid_snapshot c →
  device_dir c2 = device_dir c → length (H c2) = 9%nat →
  ∃ c2',
    get_ebeam_calibration c2 w' = (true, c2', w')
    ∧ min_x c2' = min_x c ∧ min_y c2' = min_y c
    ∧ max_x c2' = max_x c ∧ max_y c2' = max_y c
    ∧ H c2' = H c
    ∧ tuples c2' = tuples c2.
Proof.
  intros Hdir Hnd Hset (Hminx & Hmaxx & Hminy & Hmaxy & Hlen & HH) Hsame Hlen2.
  destruct (set_ebeam_calibration_written c w w' entries Hdir Hnd Hset)
    as [Hvalues _].
  assert (Hfile : ∀ name, name ∈ parameter_names →
            files w' !! (device_dir c2 +:+ name) = ebeam_value c name)
    by (intros name Hname; rewrite Hsame; apply Hvalues; exact Hname).
  unfold get_ebeam_calibration.
  rewrite (read_field_value "min_x" _ _ _ c2 w' (print_integer (min_x c))
             EmptyString (min_x c));
    [|apply Hfile; unfold parameter_names; rewrite !elem_of_cons; tauto
     |apply scan_d_printed; exact Hminx].
  rewrite (read_field_value "min_y" _ _ _ _ w' (print_integer (min_y c))
             EmptyString (min_y c));
    [|apply Hfile; unfold parameter_names; rewrite !elem_of_cons; tauto
     |apply scan_d_printed; exact Hminy].
  rewrite (read_field_value "max_x" _ _ _ _ w' (print_integer (max_x c))
             EmptyString (max_x c));
    [|apply Hfile; unfold parameter_names; rewrite !elem_of_cons; tauto
     |apply scan_d_printed; exact Hmaxx].
  rewrite (read_field_value "max_y" _ _ _ _ w' (print_integer (max_y c))
             EmptyString (max_y c));
    [|apply Hfile; unfold parameter_names; rewrite !elem_of_cons; tauto
     |apply scan_d_printed; exact Hmaxy].
  set (cz := with_max_y _ _).
  replace 9%nat with (length (H c)) by exact Hlen.
  rewrite (read_H_from_values (H c) 0 cz w').
  - eexists. split; [reflexivity|]. rewrite take_0, app_nil_l.
    repeat (split; [reflexivity|]). reflexivity.
  - rewrite Hlen. exact Hlen2.
  - exact HH.
  - intros k v Hk. cbn [Nat.add].
    apply lookup_lt_Some in Hk as Hlt. rewrite Hlen in Hlt.
    change (device_dir cz) with (device_dir c2).
    rewrite (Hfile _ (h_name_parameter k Hlt)).
    rewrite (h_name k Hlt).
    destruct (H c) as [|a0 [|a1 [|a2 [|a3 [|a4 [|a5 [|a6 [|a7 [|a8 [|a9 l]]]]]]]]]] eqn:EH;
      try discriminate.
    assert (Hat : ∀ i, H_at c i = nth i [a0; a1; a2; a3; a4; a5; a6; a7; a8] 0)
      by (intros i; unfold H_at; rewrite EH; reflexivity).
    do 9 (destruct k as [|k];
          [cbn in Hk; injection Hk as <-;
           cbn [nth]; unfold ebeam_value; cbn [String.eqb Ascii.eqb Bool.eqb];
           rewrite Hat; reflexivity|]).
    lia.
Qed.

Lemma get_after_set_witness :
  ∃ c2',
    get_ebeam_calibration saving
      (snd (set_ebeam_calibration calibrated_session driver_world))
    = (true, c2', snd (set_ebeam_calibration calibrated_session driver_world))
    ∧ min_x c2' = 0 ∧ min_y c2' = 0 ∧ max_x c2' = 1023 ∧ max_y c2' = 767
    ∧ H c2' = identity_H
    ∧ tuples c2' = tuples saving.
Proof.
  apply (get_after_set calibrated_session saving driver_world
           (snd (set_ebeam_calibration calibrated_session driver_world))
           driver_names).
  - reflexivity.
  - apply (bool_decide_unpack _). vm_compute. exact I.
  - vm_compute. reflexivity.
  - unfold valid_snapshot.
    repeat (split; [vm_compute; first [reflexivity | split; discriminate]|]).
    change (H calibrated_session) with identity_H.
    repeat (apply Forall_cons_2; [vm_compute; split; discriminate|]).
    apply Forall_nil_2.
  - reflexivity.
  - reflexivity.
Defined.
